(** * vulkan_platform_py: the execution-platform model and its detection policy

    A shallow embedding of [vulkan_platform_py/__init__.py]: the metaclass
    [StrEnumMeta] and the four string enumerations, the two dataclasses,
    [ExecutionPlatform.auto_detect], [ExecutionPlatform.get_active_hardware],
    [ExecutionPlatform.__str__] and [ExecutionPlatform.display_summary].

    Python exceptions are values of [exn]; a method that reads or mutates
    [self] is a computation in the monad [M], which threads the platform
    record and keeps the mutations made before an exception was raised.
    The dictionary a platform holds is either the [defaultdict(list)] of the
    field's default factory or a plain [dict] given to the constructor; the
    two differ in what the read of an absent key does. *)

From stdpp Require Import base option list strings gmap.

Open Scope string_scope.
Open Scope list_scope.

(** ** Exceptions and results *)

(** The exceptions the module can raise.
    - [ValueError v c] is the one [EnumMeta.__call__] raises for a value that
      no member carries: "'v' is not a valid c".
    - [KeyError k] is a plain [dict] lookup of an absent key; [k] is the
      text of the key, a [str] or a [StrEnum] member (itself a [str]).
    - [IndexError] is "list index out of range". *)
Inductive exn : Type :=
  | ValueError (value : string) (qualname : string)
  | KeyError (key : string)
  | IndexError.

Inductive result (A : Type) : Type :=
  | Return (a : A)
  | Raise (e : exn).
Arguments Return {A} a.
Arguments Raise {A} e.

(** ** StrEnum *)

(** [class StrEnum(str, Enum, metaclass=StrEnumMeta)], for the enumerations
    all of whose members are declared with [()], as the four of this module
    are: such an enumeration is given by its class name and its members in
    definition order, each with its name. *)
Class StrEnum (A : Type) : Type := {
  qualname : string;
  members : list A;
  name : A → string
}.

Section StrEnum.
Context {A : Type} `{StrEnum A}.

(** The value of a member declared with [()]: [StrEnumMeta.__new__] replaces
    [()] by the member's name ([if v == (): v = k]). *)
Definition value (m : A) : string := name m.

(** [StrEnum.__str__] and [StrEnum.__repr__]. *)
Definition str (m : A) : string := name m.
Definition repr (m : A) : string := str m.

(** [Cls(v)]: the lookup by value; the first member whose value is [v], or
    a [ValueError]. *)
Definition call (v : string) : result A :=
  match List.find (λ m, String.eqb (value m) v) members with
  | Some m => Return m
  | None => Raise (ValueError v qualname)
  end.

(** [a == b] on members: they are [str] instances, compared by content. *)
Definition eqb (a b : A) : bool := String.eqb (value a) (value b).
End StrEnum.

Inductive OperatingSystem : Type := Linux | Darwin | Windows.
Inductive HardwareType : Type := CPU | GPU.
Inductive HardwareVendor : Type := GenuineIntel | Nvidia.
Inductive VulkanBackend : Type := MoltenVK | SwiftShader | Vulkan.

#[global] Instance OperatingSystem_StrEnum : StrEnum OperatingSystem := {|
  qualname := "OperatingSystem";
  members := [Linux; Darwin; Windows];
  name := λ m, match m with
               | Linux => "Linux" | Darwin => "Darwin" | Windows => "Windows"
               end
|}.

#[global] Instance HardwareType_StrEnum : StrEnum HardwareType := {|
  qualname := "HardwareType";
  members := [CPU; GPU];
  name := λ m, match m with CPU => "CPU" | GPU => "GPU" end
|}.

#[global] Instance HardwareVendor_StrEnum : StrEnum HardwareVendor := {|
  qualname := "HardwareVendor";
  members := [GenuineIntel; Nvidia];
  name := λ m, match m with
               | GenuineIntel => "GenuineIntel" | Nvidia => "Nvidia"
               end
|}.

#[global] Instance VulkanBackend_StrEnum : StrEnum VulkanBackend := {|
  qualname := "VulkanBackend";
  members := [MoltenVK; SwiftShader; Vulkan];
  name := λ m, match m with
               | MoltenVK => "MoltenVK" | SwiftShader => "SwiftShader"
               | Vulkan => "Vulkan"
               end
|}.

#[global] Instance HardwareType_eq_dec : EqDecision HardwareType.
Proof. solve_decision. Defined.

#[global] Instance HardwareType_countable : Countable HardwareType.
Proof.
  refine (inj_countable'
            (λ t, match t with CPU => 0 | GPU => 1 end)
            (λ n, match n with 0 => CPU | _ => GPU end) _).
  by intros [].
Defined.

(** ** The dataclasses *)

Record HardwareInformation : Type := mkHardwareInformation {
  hardware_type : HardwareType;
  hardware_vendor : HardwareVendor;
  hardware_model : string;
  driver_version : string
}.

(** The class of the dictionary object a platform holds. *)
Inductive dict_class : Type :=
  | dict            (* a plain [dict] *)
  | defaultdict.    (* [defaultdict(list)] *)

(** A dictionary from [HardwareType] to lists of [HardwareInformation]: its
    class and its items. *)
Record mapping : Type := mkMapping {
  class_of : dict_class;
  items : gmap HardwareType (list HardwareInformation)
}.

(** [available_hardware] is declared as a [dict]; its default factory builds
    a [defaultdict(list)], and a mapping given to the constructor is held as
    a plain [dict]. *)
Record ExecutionPlatform : Type := mkExecutionPlatform {
  vulkan_backend : VulkanBackend;
  operating_system : OperatingSystem;
  available_hardware : mapping
}.

(** ** The host: what the three library calls return *)

(** The two attributes of a [GPUtil.GPU] the module reads. *)
Record GPUtil_GPU : Type := mkGPU {
  gpu_name : string;
  gpu_driver : string
}.

Record Host : Type := mkHost {
  platform_system : string;               (* platform.system() *)
  getGPUs : list GPUtil_GPU;              (* GPUtil.getGPUs() *)
  get_cpu_info : gmap string string       (* cpuinfo.get_cpu_info() *)
}.

(** [d[k]] on the plain [dict] of [get_cpu_info()]. *)
Definition dict_getitem (d : gmap string string) (k : string) : result string :=
  match d !! k with
  | Some v => Return v
  | None => Raise (KeyError k)
  end.

(** ** Methods as computations over [self] *)

Definition M (A : Type) : Type :=
  ExecutionPlatform → result A * ExecutionPlatform.

Definition ret {A : Type} (a : A) : M A := λ self, (Return a, self).

Definition raise {A : Type} (e : exn) : M A := λ self, (Raise e, self).

Definition bind {A B : Type} (m : M A) (k : A → M B) : M B :=
  λ self,
    match m self with
    | (Return a, self') => k a self'
    | (Raise e, self') => (Raise e, self')
    end.

Definition lift {A : Type} (r : result A) : M A := λ self, (r, self).

Declare Scope M_scope.
Delimit Scope M_scope with M.
Notation "x <- m ;; k" := (bind m (λ x, k))
  (at level 100, m at next level, right associativity) : M_scope.
Notation "m ;; k" := (bind m (λ _, k))
  (at level 100, right associativity) : M_scope.
Open Scope M_scope.

Definition get_operating_system : M OperatingSystem :=
  λ self, (Return (operating_system self), self).

Definition get_vulkan_backend : M VulkanBackend :=
  λ self, (Return (vulkan_backend self), self).

Definition set_vulkan_backend (b : VulkanBackend) : M unit :=
  λ self,
    (Return tt,
     {| vulkan_backend := b;
        operating_system := operating_system self;
        available_hardware := available_hardware self |}).

(** [self] with the items of its dictionary replaced by [d]: the effect of a
    mutation of the dictionary object, which [self] holds by reference and
    which keeps its class. *)
Definition with_available_hardware
    (d : gmap HardwareType (list HardwareInformation))
    (self : ExecutionPlatform) : ExecutionPlatform :=
  {| vulkan_backend := vulkan_backend self;
     operating_system := operating_system self;
     available_hardware :=
       {| class_of := class_of (available_hardware self); items := d |} |}.

(** [self.available_hardware[t]]. A bound key gives its list. An absent key
    of a [defaultdict(list)] is first bound to [list()], and that list is the
    result; an absent key of a plain [dict] raises [KeyError] with the key,
    and nothing is bound. *)
Definition getitem (t : HardwareType) : M (list HardwareInformation) :=
  λ self,
    match items (available_hardware self) !! t with
    | Some l => (Return l, self)
    | None =>
        match class_of (available_hardware self) with
        | defaultdict =>
            (Return [],
             with_available_hardware
               (<[t := []]> (items (available_hardware self))) self)
        | dict => (Raise (KeyError (value t)), self)
        end
    end.

(** [self.available_hardware[t].append(x)]: the list under [t] grows at its
    end, in place. *)
Definition append (t : HardwareType) (x : HardwareInformation) : M unit :=
  l <- getitem t ;;
  λ self,
    (Return tt,
     with_available_hardware
       (<[t := l ++ [x]]> (items (available_hardware self))) self).

(** [l[0]]. *)
Definition first {A : Type} (l : list A) : result A :=
  match l with
  | x :: _ => Return x
  | [] => Raise IndexError
  end.

(** [for x in l: body(x)]. *)
Fixpoint for_each {A : Type} (l : list A) (body : A → M unit) : M unit :=
  match l with
  | [] => ret tt
  | x :: l' => body x ;; for_each l' body
  end.

(** ** ExecutionPlatform *)

(** [cls(vulkan_backend=b)]: the two remaining fields come from their default
    factories, [OperatingSystem(platform.system())] and [defaultdict(list)]. *)
Definition cls (host : Host) (b : VulkanBackend) : result ExecutionPlatform :=
  match call (A := OperatingSystem) (platform_system host) with
  | Return os =>
      Return {| vulkan_backend := b;
                operating_system := os;
                available_hardware :=
                  {| class_of := defaultdict; items := ∅ |} |}
  | Raise e => Raise e
  end.

(** [cls(vulkan_backend=b, operating_system=os, available_hardware=d)]: no
    default factory runs, and the platform holds the given items in a plain
    [dict]. *)
Definition cls_with (b : VulkanBackend) (os : OperatingSystem)
    (d : gmap HardwareType (list HardwareInformation)) : ExecutionPlatform :=
  {| vulkan_backend := b;
     operating_system := os;
     available_hardware := {| class_of := dict; items := d |} |}.

(** [get_active_hardware]. *)
Definition get_active_hardware : M HardwareInformation :=
  gpus <- getitem GPU ;;
  match gpus with
  | _ :: _ => gpus' <- getitem GPU ;; lift (first gpus')
  | [] => cpus <- getitem CPU ;; lift (first cpus)
  end.

(** [__str__]: the three parts of the f-string are evaluated left to right. *)
Definition ExecutionPlatform_str : M string :=
  os <- get_operating_system ;;
  hw <- get_active_hardware ;;
  b <- get_vulkan_backend ;;
  ret (value os +:+ "/" +:+ value (hardware_vendor hw) +:+ "/" +:+ value b).

Definition ExecutionPlatform_repr : M string := ExecutionPlatform_str.

(** The body of [auto_detect] after [execution_platform] is built. *)
Definition detect (host : Host) : M unit :=
  for_each (getGPUs host) (λ nvidia_gpu,
    let gpu_info :=
      {| hardware_type := GPU;
         hardware_vendor := Nvidia;
         hardware_model := gpu_name nvidia_gpu;
         driver_version := gpu_driver nvidia_gpu |} in
    append GPU gpu_info) ;;
  let raw_cpu_info := get_cpu_info host in
  vendor_id_raw <- lift (dict_getitem raw_cpu_info "vendor_id_raw") ;;
  vendor <- lift (call (A := HardwareVendor) vendor_id_raw) ;;
  brand_raw <- lift (dict_getitem raw_cpu_info "brand_raw") ;;
  let cpu_info :=
    {| hardware_type := CPU;
       hardware_vendor := vendor;
       hardware_model := brand_raw;
       driver_version := "N/A" |} in
  append CPU cpu_info ;;
  os <- get_operating_system ;;
  if eqb os Darwin then set_vulkan_backend MoltenVK
  else if eqb os Linux then set_vulkan_backend Vulkan
  else ret tt.

(** [auto_detect]. *)
Definition auto_detect (host : Host) : result ExecutionPlatform :=
  match cls host Vulkan with
  | Return execution_platform =>
      match detect host execution_platform with
      | (Return _, execution_platform') => Return execution_platform'
      | (Raise e, _) => Raise e
      end
  | Raise e => Raise e
  end.

(** The list an [ExecutionPlatform] holds for a hardware type: the entries
    under the key [t], none when the key is absent. *)
Definition hardware_list (p : ExecutionPlatform) (t : HardwareType)
    : list HardwareInformation :=
  default [] (items (available_hardware p) !! t).

(** The [HardwareInformation] the loop of [auto_detect] builds for one GPU. *)
Definition gpu_info_of (nvidia_gpu : GPUtil_GPU) : HardwareInformation :=
  {| hardware_type := GPU;
     hardware_vendor := Nvidia;
     hardware_model := gpu_name nvidia_gpu;
     driver_version := gpu_driver nvidia_gpu |}.

(** ** StrEnumMeta *)

(** What a class body of this module binds a name to: the empty tuple of a
    member declaration ([Linux = ()]), a string ([__module__],
    [__qualname__]), or another object (a function), which [==] tells apart
    from [()]. *)
Inductive pyobj : Type :=
  | PyEmptyTuple
  | PyStr (s : string)
  | PyObject (id : nat).

(** [v == ()]. *)
Definition is_empty_tuple (v : pyobj) : bool :=
  match v with
  | PyEmptyTuple => true
  | _ => false
  end.

(** [d[k] = v] on a dictionary kept as its items in insertion order: a bound
    key keeps its place and takes the new value, a new key goes last. *)
Fixpoint setitem (d : list (string * pyobj)) (k : string) (v : pyobj)
    : list (string * pyobj) :=
  match d with
  | [] => [(k, v)]
  | (k', v') :: d' =>
      if String.eqb k' k then (k, v) :: d' else (k', v') :: setitem d' k v
  end.

(** The loop of [StrEnumMeta.__new__] from the dictionary [newclassdict]
    built so far: [for k, v in oldclassdict.items()]. *)
Fixpoint scan (items : list (string * pyobj))
    (newclassdict : list (string * pyobj)) : list (string * pyobj) :=
  match items with
  | [] => newclassdict
  | (k, v) :: items' =>
      let v := if is_empty_tuple v then PyStr k else v in
      scan items' (setitem newclassdict k v)
  end.

(** [StrEnumMeta.__new__], up to the call of [super().__new__]: the class
    dictionary that call receives. *)
Definition StrEnumMeta_new (oldclassdict : list (string * pyobj))
    : list (string * pyobj) :=
  scan oldclassdict [].

(** ** display_summary *)

(** A method that prints: besides [self] it threads the standard output, kept
    as the list of the strings given to [print], oldest first. What was
    printed before an exception stays printed. *)
Definition IO (A : Type) : Type :=
  list string → ExecutionPlatform → result A * list string * ExecutionPlatform.

Definition io_bind {A B : Type} (m : IO A) (k : A → IO B) : IO B :=
  λ out self,
    match m out self with
    | (Return a, out', self') => k a out' self'
    | (Raise e, out', self') => (Raise e, out', self')
    end.

(** A computation over [self] that prints nothing. *)
Definition run {A : Type} (m : M A) : IO A :=
  λ out self,
    match m self with
    | (r, self') => (r, out, self')
    end.

(** [print(s)]. *)
Definition print (s : string) : IO unit :=
  λ out self, (Return tt, out ++ [s], self).

Declare Scope IO_scope.
Delimit Scope IO_scope with IO.
Notation "x <- m ;; k" := (io_bind m (λ x, k))
  (at level 100, m at next level, right associativity) : IO_scope.
Notation "m ;; k" := (io_bind m (λ _, k))
  (at level 100, right associativity) : IO_scope.

Section display_summary.

(** The text an f-string gives for a list of [HardwareInformation]: the
    built-in [repr] of a list of dataclass instances. *)
Variable list_repr : list HardwareInformation → string.

(** [display_summary]. *)
Definition display_summary : IO unit :=
  (os <- run get_operating_system ;;
   print ("Detected OS     -> " +:+ value os) ;;
   gpus <- run (getitem GPU) ;;
   print ("Detected GPUs   -> " +:+ list_repr gpus) ;;
   cpus <- run (getitem CPU) ;;
   cpu <- run (lift (first cpus)) ;;
   print ("Detected CPU    -> " +:+ hardware_model cpu) ;;
   b <- run get_vulkan_backend ;;
   print ("Vulkan backend  -> " +:+ value b) ;;
   gpus <- run (getitem GPU) ;;
   match gpus with
   | _ :: _ =>
       gpus' <- run (getitem GPU) ;;
       gpu <- run (lift (first gpus')) ;;
       print ("Shaders will most likely be executed on " +:+ hardware_model gpu)
   | [] => print "No GPU detected, shaders will be executed on CPU"
   end)%IO.

End display_summary.

(** ** Concrete hosts *)

(** The first scenario of the specification: a Darwin host with one GPU. *)
Definition darwin_host : Host :=
  {| platform_system := "Darwin";
     getGPUs := [ {| gpu_name := "Apple M2"; gpu_driver := "N/A" |} ];
     get_cpu_info := {[ "vendor_id_raw" := "GenuineIntel";
                        "brand_raw" := "Intel Core i9" ]} |}.

(** The second scenario: a Linux host without a GPU. *)
Definition linux_host : Host :=
  {| platform_system := "Linux";
     getGPUs := [];
     get_cpu_info := {[ "vendor_id_raw" := "GenuineIntel";
                        "brand_raw" := "Intel Xeon" ]} |}.

(** A Linux host whose CPU reports the vendor identifier of the other member
    of [HardwareVendor]. *)
Definition nvidia_cpu_host : Host :=
  {| platform_system := "Linux";
     getGPUs := [];
     get_cpu_info := {[ "vendor_id_raw" := "Nvidia";
                        "brand_raw" := "Grace" ]} |}.

(** A platform on which nothing was detected: [cls(vulkan_backend=Vulkan)] on
    a Linux host, before any probe result is stored. *)
Definition bare_platform : ExecutionPlatform :=
  {| vulkan_backend := Vulkan;
     operating_system := Linux;
     available_hardware := {| class_of := defaultdict; items := ∅ |} |}.

(** A platform built with the constructor from a dictionary that has a GPU
    entry under the GPU key and an empty list under the CPU key. *)
Definition gpu_only_platform : ExecutionPlatform :=
  cls_with Vulkan Linux
    {[ GPU := [ {| hardware_type := GPU; hardware_vendor := Nvidia;
                   hardware_model := "Tesla T4";
                   driver_version := "535.104" |} ];
       CPU := [] ]}.

(** A platform built with the constructor from a dictionary with one CPU
    entry and no GPU key:
    [ExecutionPlatform(Vulkan, Linux, {CPU: [HardwareInformation(CPU,
    GenuineIntel, "Intel Xeon", "N/A")]})]. *)
Definition cpu_only_dict_platform : ExecutionPlatform :=
  cls_with Vulkan Linux
    {[ CPU := [ {| hardware_type := CPU; hardware_vendor := GenuineIntel;
                   hardware_model := "Intel Xeon";
                   driver_version := "N/A" |} ] ]}.

(** A platform built with the constructor from the empty dictionary:
    [ExecutionPlatform(Vulkan, Linux, {})]. *)
Definition empty_dict_platform : ExecutionPlatform := cls_with Vulkan Linux ∅.

(** ** Basic facts: the monad and the dictionary *)

Lemma with_available_hardware_id (p : ExecutionPlatform) :
  with_available_hardware (items (available_hardware p)) p = p.
Proof. by destruct p as [b os [c d]]. Qed.

Lemma getitem_Some (t : HardwareType) (p : ExecutionPlatform)
    (l : list HardwareInformation) :
  items (available_hardware p) !! t = Some l → getitem t p = (Return l, p).
Proof. intros Hl. unfold getitem. by rewrite Hl. Qed.

(** The read of an absent key of a plain [dict]. *)
Lemma getitem_KeyError (t : HardwareType) (p : ExecutionPlatform) :
  class_of (available_hardware p) = dict →
  items (available_hardware p) !! t = None →
  getitem t p = (Raise (KeyError (value t)), p).
Proof. intros Hc Hl. unfold getitem. by rewrite Hl, Hc. Qed.

(** On a [defaultdict], whatever the key's state, the read yields
    [hardware_list] and leaves the key bound to it. *)
Lemma getitem_spec (t : HardwareType) (p : ExecutionPlatform) :
  class_of (available_hardware p) = defaultdict →
  getitem t p =
    (Return (hardware_list p t),
     with_available_hardware
       (<[t := hardware_list p t]> (items (available_hardware p))) p).
Proof.
  intros Hc. unfold getitem, hardware_list. rewrite Hc.
  destruct (items (available_hardware p) !! t) as [l|] eqn:Hl; simpl; [|done].
  by rewrite insert_id, with_available_hardware_id.
Qed.

Lemma hardware_list_Some (p : ExecutionPlatform) (t : HardwareType)
    (l : list HardwareInformation) :
  items (available_hardware p) !! t = Some l → hardware_list p t = l.
Proof. intros Hl. unfold hardware_list. by rewrite Hl. Qed.

Lemma hardware_list_None (p : ExecutionPlatform) (t : HardwareType) :
  items (available_hardware p) !! t = None → hardware_list p t = [].
Proof. intros Hl. unfold hardware_list. by rewrite Hl. Qed.

Lemma hardware_list_cons (p : ExecutionPlatform) (t : HardwareType)
    (x : HardwareInformation) (l : list HardwareInformation) :
  hardware_list p t = x :: l →
  items (available_hardware p) !! t = Some (x :: l).
Proof.
  unfold hardware_list.
  destruct (items (available_hardware p) !! t); simpl; intros; by simplify_eq.
Qed.

Lemma append_spec (t : HardwareType) (x : HardwareInformation)
    (p : ExecutionPlatform) :
  class_of (available_hardware p) = defaultdict →
  append t x p =
    (Return tt,
     with_available_hardware
       (<[t := hardware_list p t ++ [x]]> (items (available_hardware p))) p).
Proof.
  intros Hc. unfold append, bind. rewrite getitem_spec by done. simpl.
  unfold with_available_hardware; simpl. by rewrite insert_insert_eq.
Qed.

(** On a bound key the class of the dictionary plays no part. *)
Lemma append_bound (t : HardwareType) (x : HardwareInformation)
    (p : ExecutionPlatform) (l : list HardwareInformation) :
  items (available_hardware p) !! t = Some l →
  append t x p =
    (Return tt,
     with_available_hardware
       (<[t := l ++ [x]]> (items (available_hardware p))) p).
Proof. intros Hl. unfold append, bind. by rewrite (getitem_Some _ _ _ Hl). Qed.

(** The state the GPU loop leaves: untouched when there is no GPU, otherwise
    the GPU key holds its former list followed by one entry per GPU. *)
Definition after_gpus (gs : list GPUtil_GPU) (p : ExecutionPlatform)
    : ExecutionPlatform :=
  match gs with
  | [] => p
  | _ :: _ =>
      with_available_hardware
        (<[GPU := hardware_list p GPU ++ map gpu_info_of gs]>
           (items (available_hardware p))) p
  end.

(** The loop runs through when the first [append] can read the GPU key: on a
    [defaultdict], or with the key bound. *)
Lemma for_each_gpus (gs : list GPUtil_GPU) (p : ExecutionPlatform) :
  class_of (available_hardware p) = defaultdict ∨
    is_Some (items (available_hardware p) !! GPU) →
  for_each gs (λ g, append GPU (gpu_info_of g)) p = (Return tt, after_gpus gs p).
Proof.
  revert p. induction gs as [|g gs IH]; intros p Hr; [done|].
  assert (append GPU (gpu_info_of g) p =
            (Return tt,
             with_available_hardware
               (<[GPU := hardware_list p GPU ++ [gpu_info_of g]]>
                  (items (available_hardware p))) p)) as Happ.
  { destruct Hr as [Hc|[l Hl]]; [by apply append_spec|].
    rewrite (append_bound _ _ _ _ Hl). by rewrite (hardware_list_Some _ _ _ Hl). }
  simpl for_each. unfold bind at 1. rewrite Happ, IH.
  - f_equal. destruct gs as [|g' gs]; [done|].
    unfold after_gpus, with_available_hardware, hardware_list; simpl.
    rewrite lookup_insert_eq, insert_insert_eq. simpl.
    by rewrite <- app_assoc.
  - right. simpl. rewrite lookup_insert_eq. by eexists.
Qed.

(** On a plain [dict] without the GPU key the first [append] raises. *)
Lemma for_each_gpus_KeyError (g : GPUtil_GPU) (gs : list GPUtil_GPU)
    (p : ExecutionPlatform) :
  class_of (available_hardware p) = dict →
  items (available_hardware p) !! GPU = None →
  for_each (g :: gs) (λ g, append GPU (gpu_info_of g)) p =
    (Raise (KeyError "GPU"), p).
Proof.
  intros Hc Hl. simpl for_each. unfold bind at 1, append, bind.
  by rewrite (getitem_KeyError _ _ Hc Hl).
Qed.
(** ** Enumeration lookups *)

Lemma call_OperatingSystem (s : string) :
  @call OperatingSystem _ s =
    if String.eqb "Linux" s then Return Linux
    else if String.eqb "Darwin" s then Return Darwin
    else if String.eqb "Windows" s then Return Windows
    else Raise (ValueError s "OperatingSystem").
Proof.
  unfold call, value. cbn [members name qualname List.find
    OperatingSystem_StrEnum HardwareVendor_StrEnum].
  by repeat destruct (String.eqb _ s).
Qed.

Lemma call_HardwareVendor (s : string) :
  @call HardwareVendor _ s =
    if String.eqb "GenuineIntel" s then Return GenuineIntel
    else if String.eqb "Nvidia" s then Return Nvidia
    else Raise (ValueError s "HardwareVendor").
Proof.
  unfold call, value. cbn [members name qualname List.find
    OperatingSystem_StrEnum HardwareVendor_StrEnum].
  by repeat destruct (String.eqb _ s).
Qed.

(** A lookup that succeeds returns the member that carries the value. *)
Lemma call_Return_value {A : Type} `{StrEnum A} (s : string) (m : A) :
  call s = Return m → value m = s.
Proof.
  unfold call. destruct (List.find _ _) as [m'|] eqn:Hf; [|done].
  intros [= <-]. apply find_some in Hf as [_ Hv]. by apply String.eqb_eq.
Qed.

(** ** The result of a detection pass *)

Definition cpu_info_of (vendor : HardwareVendor) (brand_raw : string)
    : HardwareInformation :=
  {| hardware_type := CPU;
     hardware_vendor := vendor;
     hardware_model := brand_raw;
     driver_version := "N/A" |}.

(** The items after the GPU loop has run on the empty [defaultdict]. *)
Definition gpu_entries (gs : list GPUtil_GPU)
    : gmap HardwareType (list HardwareInformation) :=
  match gs with
  | [] => ∅
  | _ :: _ => {[ GPU := map gpu_info_of gs ]}
  end.

(** The platform a detection pass returns, in closed form. *)
Definition detected (os : OperatingSystem) (gs : list GPUtil_GPU)
    (vendor : HardwareVendor) (brand_raw : string) : ExecutionPlatform :=
  {| vulkan_backend := match os with Darwin => MoltenVK | _ => Vulkan end;
     operating_system := os;
     available_hardware :=
       {| class_of := defaultdict;
          items := <[CPU := [cpu_info_of vendor brand_raw]]> (gpu_entries gs) |} |}.

Lemma gpu_entries_CPU (gs : list GPUtil_GPU) : gpu_entries gs !! CPU = None.
Proof. by destruct gs. Qed.

Lemma gpu_entries_GPU (gs : list GPUtil_GPU) :
  default [] (gpu_entries gs !! GPU) = map gpu_info_of gs.
Proof. destruct gs; [done|]. unfold gpu_entries. by rewrite lookup_singleton_eq. Qed.

Lemma after_gpus_empty (gs : list GPUtil_GPU) (b : VulkanBackend)
    (os : OperatingSystem) :
  after_gpus gs {| vulkan_backend := b; operating_system := os;
                   available_hardware :=
                     {| class_of := defaultdict; items := ∅ |} |} =
    {| vulkan_backend := b; operating_system := os;
       available_hardware :=
         {| class_of := defaultdict; items := gpu_entries gs |} |}.
Proof. by destruct gs. Qed.

(** Runs [detect] up to the read of the CPU vendor identifier. *)
Ltac run_gpu_loop :=
  unfold detect; unfold bind at 1;
  change (λ nvidia_gpu : GPUtil_GPU, append GPU _)
    with (λ g, append GPU (gpu_info_of g));
  rewrite for_each_gpus by (by left).

(** Runs one [lift]ed lookup whose outcome the equation [H] gives. *)
Ltac run_lookup H :=
  unfold bind at 1, lift at 1; try unfold dict_getitem at 1; rewrite H.

Lemma detect_no_vendor_key (host : Host) (p : ExecutionPlatform) :
  class_of (available_hardware p) = defaultdict →
  get_cpu_info host !! "vendor_id_raw" = None →
  detect host p = (Raise (KeyError "vendor_id_raw"), after_gpus (getGPUs host) p).
Proof. intros Hd Hv. run_gpu_loop. by run_lookup Hv. Qed.

Lemma detect_bad_vendor (host : Host) (p : ExecutionPlatform)
    (vendor_id_raw : string) (e : exn) :
  class_of (available_hardware p) = defaultdict →
  get_cpu_info host !! "vendor_id_raw" = Some vendor_id_raw →
  call (A := HardwareVendor) vendor_id_raw = Raise e →
  detect host p = (Raise e, after_gpus (getGPUs host) p).
Proof. intros Hd Hv Hc. run_gpu_loop. run_lookup Hv. by run_lookup Hc. Qed.

Lemma detect_no_brand_key (host : Host) (p : ExecutionPlatform)
    (vendor_id_raw : string) (vendor : HardwareVendor) :
  class_of (available_hardware p) = defaultdict →
  get_cpu_info host !! "vendor_id_raw" = Some vendor_id_raw →
  call vendor_id_raw = Return vendor →
  get_cpu_info host !! "brand_raw" = None →
  detect host p = (Raise (KeyError "brand_raw"), after_gpus (getGPUs host) p).
Proof.
  intros Hd Hv Hc Hb. run_gpu_loop. run_lookup Hv. run_lookup Hc. by run_lookup Hb.
Qed.

Lemma detect_ok (host : Host) (b : VulkanBackend) (os : OperatingSystem)
    (vendor_id_raw brand_raw : string) (vendor : HardwareVendor) :
  get_cpu_info host !! "vendor_id_raw" = Some vendor_id_raw →
  call vendor_id_raw = Return vendor →
  get_cpu_info host !! "brand_raw" = Some brand_raw →
  detect host {| vulkan_backend := b; operating_system := os;
                 available_hardware :=
                   {| class_of := defaultdict; items := ∅ |} |} =
    (Return tt,
     {| vulkan_backend := match os with Darwin => MoltenVK | Linux => Vulkan
                          | Windows => b end;
        operating_system := os;
        available_hardware :=
          {| class_of := defaultdict;
             items := <[CPU := [cpu_info_of vendor brand_raw]]>
                        (gpu_entries (getGPUs host)) |} |}).
Proof.
  intros Hv Hc Hb. run_gpu_loop. rewrite after_gpus_empty.
  run_lookup Hv. run_lookup Hc. run_lookup Hb.
  unfold bind at 1. rewrite append_spec by done.
  unfold hardware_list, with_available_hardware; simpl.
  rewrite gpu_entries_CPU; simpl.
  unfold bind, get_operating_system; simpl.
  by destruct os.
Qed.

Lemma auto_detect_bad_os (host : Host) (e : exn) :
  call (A := OperatingSystem) (platform_system host) = Raise e →
  auto_detect host = Raise e.
Proof. intros Hos. unfold auto_detect, cls. by rewrite Hos. Qed.

Lemma auto_detect_ok (host : Host) (os : OperatingSystem)
    (vendor_id_raw brand_raw : string) (vendor : HardwareVendor) :
  call (platform_system host) = Return os →
  get_cpu_info host !! "vendor_id_raw" = Some vendor_id_raw →
  call vendor_id_raw = Return vendor →
  get_cpu_info host !! "brand_raw" = Some brand_raw →
  auto_detect host = Return (detected os (getGPUs host) vendor brand_raw).
Proof.
  intros Hos Hv Hc Hb. unfold auto_detect, cls. rewrite Hos.
  rewrite (detect_ok _ _ _ _ _ _ Hv Hc Hb). unfold detected. by destruct os.
Qed.

Lemma auto_detect_bad_vendor (host : Host) (os : OperatingSystem)
    (vendor_id_raw : string) (e : exn) :
  call (platform_system host) = Return os →
  get_cpu_info host !! "vendor_id_raw" = Some vendor_id_raw →
  call (A := HardwareVendor) vendor_id_raw = Raise e →
  auto_detect host = Raise e.
Proof.
  intros Hos Hv Hc. unfold auto_detect, cls. rewrite Hos.
  by rewrite detect_bad_vendor with (vendor_id_raw := vendor_id_raw) (e := e).
Qed.

(** Every successful pass is of that form. *)
Lemma auto_detect_inv (host : Host) (p : ExecutionPlatform) :
  auto_detect host = Return p →
  ∃ (os : OperatingSystem) (vendor_id_raw : string)
    (vendor : HardwareVendor) (brand_raw : string),
    call (platform_system host) = Return os ∧
    get_cpu_info host !! "vendor_id_raw" = Some vendor_id_raw ∧
    call vendor_id_raw = Return vendor ∧
    get_cpu_info host !! "brand_raw" = Some brand_raw ∧
    p = detected os (getGPUs host) vendor brand_raw.
Proof.
  intros Hp.
  destruct (call (A := OperatingSystem) (platform_system host))
    as [os|e] eqn:Hos; [|by rewrite (auto_detect_bad_os _ _ Hos) in Hp].
  destruct (get_cpu_info host !! "vendor_id_raw") as [vr|] eqn:Hv.
  - destruct (call (A := HardwareVendor) vr) as [vendor|e] eqn:Hc;
      [|by rewrite (auto_detect_bad_vendor _ _ _ _ Hos Hv Hc) in Hp].
    destruct (get_cpu_info host !! "brand_raw") as [br|] eqn:Hb.
    + rewrite (auto_detect_ok _ _ _ _ _ Hos Hv Hc Hb) in Hp.
      injection Hp as <-. by exists os, vr, vendor, br.
    + exfalso. revert Hp. unfold auto_detect, cls. rewrite Hos.
      by rewrite detect_no_brand_key with (vendor_id_raw := vr) (vendor := vendor).
  - exfalso. revert Hp. unfold auto_detect, cls. rewrite Hos.
    by rewrite detect_no_vendor_key.
Qed.

Lemma detected_class (os : OperatingSystem) (gs : list GPUtil_GPU)
    (vendor : HardwareVendor) (brand_raw : string) :
  class_of (available_hardware (detected os gs vendor brand_raw)) = defaultdict.
Proof. reflexivity. Qed.

Lemma detected_hardware_list_CPU (os : OperatingSystem) (gs : list GPUtil_GPU)
    (vendor : HardwareVendor) (brand_raw : string) :
  hardware_list (detected os gs vendor brand_raw) CPU =
    [cpu_info_of vendor brand_raw].
Proof. unfold hardware_list, detected; simpl. by rewrite lookup_insert_eq. Qed.

Lemma detected_hardware_list_GPU (os : OperatingSystem) (gs : list GPUtil_GPU)
    (vendor : HardwareVendor) (brand_raw : string) :
  hardware_list (detected os gs vendor brand_raw) GPU = map gpu_info_of gs.
Proof.
  unfold hardware_list, detected; simpl.
  rewrite lookup_insert_ne by done. apply gpu_entries_GPU.
Qed.

(** ** get_active_hardware *)

Lemma get_active_hardware_gpu (p : ExecutionPlatform)
    (g : HardwareInformation) (gs : list HardwareInformation) :
  hardware_list p GPU = g :: gs → get_active_hardware p = (Return g, p).
Proof.
  intros Hg. apply hardware_list_cons in Hg.
  unfold get_active_hardware, bind. rewrite (getitem_Some _ _ _ Hg).
  by rewrite (getitem_Some _ _ _ Hg).
Qed.

(** On a [defaultdict] without a GPU entry the result is the head of the CPU
    list, read after the GPU key (and then the CPU key) has been bound. *)
Lemma get_active_hardware_no_gpu (p : ExecutionPlatform) :
  class_of (available_hardware p) = defaultdict →
  hardware_list p GPU = [] →
  get_active_hardware p =
    (first (hardware_list p CPU),
     with_available_hardware
       (<[CPU := hardware_list p CPU]>
          (<[GPU := []]> (items (available_hardware p)))) p).
Proof.
  intros Hd Hg. unfold get_active_hardware, bind.
  rewrite getitem_spec, Hg, getitem_spec by done.
  unfold hardware_list, with_available_hardware, lift; simpl.
  rewrite lookup_insert_ne by done.
  by destruct (default [] (items (available_hardware p) !! CPU)).
Qed.

(** With both keys bound and no GPU entry, the class of the dictionary plays
    no part and nothing changes. *)
Lemma get_active_hardware_bound (p : ExecutionPlatform)
    (l : list HardwareInformation) :
  items (available_hardware p) !! GPU = Some [] →
  items (available_hardware p) !! CPU = Some l →
  get_active_hardware p = (first l, p).
Proof.
  intros Hg Hc. unfold get_active_hardware, bind.
  rewrite (getitem_Some _ _ _ Hg), (getitem_Some _ _ _ Hc).
  unfold lift. by destruct l.
Qed.

(** On a plain [dict] an absent key that is read raises [KeyError]. *)
Lemma get_active_hardware_dict_no_GPU_key (p : ExecutionPlatform) :
  class_of (available_hardware p) = dict →
  items (available_hardware p) !! GPU = None →
  get_active_hardware p = (Raise (KeyError "GPU"), p).
Proof.
  intros Hd Hg. unfold get_active_hardware, bind.
  by rewrite (getitem_KeyError _ _ Hd Hg).
Qed.

Lemma get_active_hardware_dict_no_CPU_key (p : ExecutionPlatform) :
  class_of (available_hardware p) = dict →
  items (available_hardware p) !! GPU = Some [] →
  items (available_hardware p) !! CPU = None →
  get_active_hardware p = (Raise (KeyError "CPU"), p).
Proof.
  intros Hd Hg Hc. unfold get_active_hardware, bind.
  by rewrite (getitem_Some _ _ _ Hg), (getitem_KeyError _ _ Hd Hc).
Qed.

(** On a plain [dict] the call never changes the platform. *)
Lemma get_active_hardware_dict_state (p : ExecutionPlatform) :
  class_of (available_hardware p) = dict → (get_active_hardware p).2 = p.
Proof.
  intros Hd.
  destruct (items (available_hardware p) !! GPU) as [[|g gs]|] eqn:Hg.
  - destruct (items (available_hardware p) !! CPU) as [l|] eqn:Hc.
    + by rewrite (get_active_hardware_bound _ _ Hg Hc).
    + by rewrite (get_active_hardware_dict_no_CPU_key _ Hd Hg Hc).
  - by rewrite (get_active_hardware_gpu _ g gs (hardware_list_Some _ _ _ Hg)).
  - by rewrite (get_active_hardware_dict_no_GPU_key _ Hd Hg).
Qed.

(** Whatever the platform, the call keeps the two other fields, the class of
    the dictionary and every bound key with its list. *)
Lemma get_active_hardware_frame (p : ExecutionPlatform) :
  vulkan_backend (get_active_hardware p).2 = vulkan_backend p ∧
  operating_system (get_active_hardware p).2 = operating_system p ∧
  class_of (available_hardware (get_active_hardware p).2) =
    class_of (available_hardware p) ∧
  ∀ (t : HardwareType) (l : list HardwareInformation),
    items (available_hardware p) !! t = Some l →
    items (available_hardware (get_active_hardware p).2) !! t = Some l.
Proof.
  destruct (class_of (available_hardware p)) eqn:Hd.
  - by rewrite (get_active_hardware_dict_state _ Hd).
  - destruct (hardware_list p GPU) as [|g gs] eqn:Hg.
    + rewrite (get_active_hardware_no_gpu _ Hd Hg). simpl.
      split; [done|]. split; [done|]. split; [done|]. intros [] l Ht.
      * rewrite (hardware_list_Some _ _ _ Ht). by rewrite lookup_insert_eq.
      * rewrite lookup_insert_ne, lookup_insert_eq by done.
        apply hardware_list_Some in Ht. congruence.
    + by rewrite (get_active_hardware_gpu _ _ _ Hg).
Qed.
(** ** The claims *)

(** C1. For every operating system that detection accepts, [auto_detect]
    yields the backend of the fixed rule: Darwin gives MoltenVK, Linux gives
    Vulkan, Windows keeps the default Vulkan. The platform is built with the
    backend Vulkan, and the pass changes the initial backend only in a
    matching case: started from any backend [b], it leaves [b] on Windows.
    With a usable CPU probe the pass does return a platform. *)
Theorem auto_detect_backend_rule (host : Host) (os : OperatingSystem) :
  call (platform_system host) = Return os →
  cls host Vulkan =
    Return {| vulkan_backend := Vulkan; operating_system := os;
              available_hardware :=
                {| class_of := defaultdict; items := ∅ |} |} ∧
  (∀ p : ExecutionPlatform, auto_detect host = Return p →
     operating_system p = os ∧
     vulkan_backend p =
       match os with
       | Darwin => MoltenVK | Linux => Vulkan | Windows => Vulkan
       end) ∧
  (∀ (vendor_id_raw brand_raw : string) (vendor : HardwareVendor),
     get_cpu_info host !! "vendor_id_raw" = Some vendor_id_raw →
     call vendor_id_raw = Return vendor →
     get_cpu_info host !! "brand_raw" = Some brand_raw →
     (∃ p : ExecutionPlatform, auto_detect host = Return p) ∧
     ∀ b : VulkanBackend, ∃ p' : ExecutionPlatform,
       detect host {| vulkan_backend := b; operating_system := os;
                      available_hardware :=
                        {| class_of := defaultdict; items := ∅ |} |} =
         (Return tt, p') ∧
       vulkan_backend p' =
         match os with
         | Darwin => MoltenVK | Linux => Vulkan | Windows => b
         end).
Proof.
  intros Hos. split; [by unfold cls; rewrite Hos|]. split.
  - intros p Hp.
    destruct (auto_detect_inv _ _ Hp) as (os' & vr & v & br & Hos' & _ & _ & _ & ->).
    rewrite Hos in Hos'. injection Hos' as <-. by destruct os.
  - intros vr br v Hv Hc Hb. split.
    + eexists. by apply (auto_detect_ok _ _ _ _ _ Hos Hv Hc Hb).
    + intros b. eexists. split; [by apply (detect_ok _ _ _ _ _ _ Hv Hc Hb)|done].
Qed.

Lemma auto_detect_backend_rule_witness :
  ∃ p : ExecutionPlatform,
    auto_detect darwin_host = Return p ∧ vulkan_backend p = MoltenVK.
Proof.
  destruct (auto_detect_backend_rule darwin_host Darwin
              ltac:(vm_compute; reflexivity)) as (_ & Hrule & Hruns).
  destruct (Hruns "GenuineIntel" "Intel Core i9" GenuineIntel
              ltac:(vm_compute; reflexivity) ltac:(vm_compute; reflexivity)
              ltac:(vm_compute; reflexivity)) as [[p Hp] _].
  exists p. split; [exact Hp|]. exact (proj2 (Hrule p Hp)).
Defined.

(** C2, as the code has it. [get_active_hardware] returns the first entry of
    the GPU list whenever that list is not empty, whatever the CPU list
    holds. When the GPU list is empty and the CPU list is not, it returns the
    first entry of the CPU list provided the read of the GPU key goes
    through: the dictionary is the [defaultdict] of the default factory, or
    it binds the GPU key. On a plain [dict] without the GPU key the call
    raises [KeyError] and changes nothing. *)
Theorem get_active_hardware_prefers_gpu (p : ExecutionPlatform) :
  (∀ (g : HardwareInformation) (gs : list HardwareInformation),
     hardware_list p GPU = g :: gs →
     get_active_hardware p = (Return g, p)) ∧
  (∀ (c : HardwareInformation) (cs : list HardwareInformation),
     hardware_list p GPU = [] →
     hardware_list p CPU = c :: cs →
     class_of (available_hardware p) = defaultdict ∨
       is_Some (items (available_hardware p) !! GPU) →
     (get_active_hardware p).1 = Return c) ∧
  (class_of (available_hardware p) = dict →
   items (available_hardware p) !! GPU = None →
   get_active_hardware p = (Raise (KeyError "GPU"), p)).
Proof.
  split; [|split].
  - intros g gs Hg. by apply get_active_hardware_gpu with gs.
  - intros c cs Hg Hc [Hd|[l Hl]].
    + rewrite (get_active_hardware_no_gpu _ Hd Hg). simpl. by rewrite Hc.
    + rewrite (hardware_list_Some _ _ _ Hl) in Hg. subst l.
      rewrite (get_active_hardware_bound _ _ Hl (hardware_list_cons _ _ _ _ Hc)).
      done.
  - apply get_active_hardware_dict_no_GPU_key.
Qed.

Lemma get_active_hardware_prefers_gpu_witness :
  (get_active_hardware (detected Darwin (getGPUs darwin_host) GenuineIntel "Intel Core i9")).1 =
    Return {| hardware_type := GPU; hardware_vendor := Nvidia;
              hardware_model := "Apple M2"; driver_version := "N/A" |} ∧
  (get_active_hardware (detected Linux [] GenuineIntel "Intel Xeon")).1 =
    Return {| hardware_type := CPU; hardware_vendor := GenuineIntel;
              hardware_model := "Intel Xeon"; driver_version := "N/A" |} ∧
  get_active_hardware cpu_only_dict_platform =
    (Raise (KeyError "GPU"), cpu_only_dict_platform).
Proof.
  split; [|split].
  - rewrite (proj1 (get_active_hardware_prefers_gpu _)
               (gpu_info_of {| gpu_name := "Apple M2"; gpu_driver := "N/A" |}) []);
      [reflexivity | vm_compute; reflexivity].
  - apply (proj1 (proj2 (get_active_hardware_prefers_gpu _))
             (cpu_info_of GenuineIntel "Intel Xeon") []);
      [vm_compute; reflexivity | vm_compute; reflexivity | by left].
  - apply (proj2 (proj2 (get_active_hardware_prefers_gpu _)));
      vm_compute; reflexivity.
Defined.

(** C2, as stated, fails: the platform built with the constructor from
    [{CPU: [cpu]}] holds a plain [dict]; its GPU list is empty and its CPU
    list is not, and [get_active_hardware] raises [KeyError] on the GPU key
    instead of returning the CPU entry. *)
Lemma cpu_only_dict_platform_raises :
  hardware_list cpu_only_dict_platform GPU = [] ∧
  hardware_list cpu_only_dict_platform CPU =
    [ {| hardware_type := CPU; hardware_vendor := GenuineIntel;
         hardware_model := "Intel Xeon"; driver_version := "N/A" |} ] ∧
  get_active_hardware cpu_only_dict_platform =
    (Raise (KeyError "GPU"), cpu_only_dict_platform) ∧
  ¬ (∀ (p : ExecutionPlatform) (c : HardwareInformation)
       (cs : list HardwareInformation),
       hardware_list p GPU = [] → hardware_list p CPU = c :: cs →
       (get_active_hardware p).1 = Return c).
Proof.
  split; [reflexivity|]. split; [reflexivity|]. split; [reflexivity|].
  intros Hall.
  specialize (Hall cpu_only_dict_platform _ [] eq_refl eq_refl).
  discriminate Hall.
Qed.

(** C3, as the code has it. [HardwareVendor] has two members, and the lookup
    by value accepts the value of either: a vendor identifier that is neither
    "GenuineIntel" nor "Nvidia" makes the classification, and with it
    [auto_detect] on an accepted operating system, raise the [ValueError] of
    [HardwareVendor]. *)
Theorem unrecognized_vendor_fails (v : string) :
  v ≠ "GenuineIntel" → v ≠ "Nvidia" →
  call (A := HardwareVendor) v = Raise (ValueError v "HardwareVendor") ∧
  ∀ (host : Host) (os : OperatingSystem),
    call (platform_system host) = Return os →
    get_cpu_info host !! "vendor_id_raw" = Some v →
    auto_detect host = Raise (ValueError v "HardwareVendor").
Proof.
  intros Hi Hn.
  assert (call (A := HardwareVendor) v = Raise (ValueError v "HardwareVendor"))
    as Hc.
  { rewrite call_HardwareVendor.
    destruct (String.eqb_spec "GenuineIntel" v); [congruence|].
    destruct (String.eqb_spec "Nvidia" v); [congruence|done]. }
  split; [done|]. intros host os Hos Hv.
  by apply auto_detect_bad_vendor with os v.
Qed.

Lemma unrecognized_vendor_fails_witness :
  call (A := HardwareVendor) "AuthenticAMD" =
    Raise (ValueError "AuthenticAMD" "HardwareVendor").
Proof.
  apply (unrecognized_vendor_fails "AuthenticAMD"); by intros [=].
Defined.

(** C3, as stated, fails: the vendor identifier "Nvidia" is not
    "GenuineIntel", and the classification accepts it; a detection pass with
    that CPU vendor returns a platform. *)
Lemma nvidia_vendor_is_accepted :
  "Nvidia" ≠ "GenuineIntel" ∧
  call (A := HardwareVendor) "Nvidia" = Return Nvidia ∧
  auto_detect nvidia_cpu_host = Return (detected Linux [] Nvidia "Grace") ∧
  ¬ (∀ v : string, v ≠ "GenuineIntel" →
       call (A := HardwareVendor) v = Raise (ValueError v "HardwareVendor")).
Proof.
  split; [by intros [=]|]. split; [reflexivity|]. split.
  - by apply auto_detect_ok with "Nvidia".
  - intros Hall. specialize (Hall "Nvidia" ltac:(by intros [=])). discriminate Hall.
Qed.



(** C5. A platform returned by [auto_detect] has a CPU list of exactly one
    entry, and a GPU list that is the probe's list of GPUs, entry by entry:
    empty when the probe reports none. *)
Theorem auto_detect_hardware_lists (host : Host) (p : ExecutionPlatform) :
  auto_detect host = Return p →
  (∃ cpu_info : HardwareInformation, hardware_list p CPU = [cpu_info]) ∧
  length (hardware_list p CPU) = 1 ∧
  hardware_list p GPU = map gpu_info_of (getGPUs host) ∧
  length (hardware_list p GPU) = length (getGPUs host) ∧
  (getGPUs host = [] → hardware_list p GPU = []).
Proof.
  intros Hp.
  destruct (auto_detect_inv _ _ Hp) as (os & vr & v & br & _ & _ & _ & _ & ->).
  rewrite detected_hardware_list_CPU, detected_hardware_list_GPU.
  split; [by eexists|]. split; [done|]. split; [done|].
  split; [by rewrite length_map|]. by intros ->.
Qed.

Lemma auto_detect_hardware_lists_witness :
  length (hardware_list (detected Linux [] GenuineIntel "Intel Xeon") CPU) = 1 ∧
  hardware_list (detected Linux [] GenuineIntel "Intel Xeon") GPU = [].
Proof.
  destruct (auto_detect_hardware_lists linux_host
              (detected Linux [] GenuineIntel "Intel Xeon")
              ltac:(vm_compute; reflexivity)) as (_ & Hcpu & _ & _ & Hgpu).
  split; [exact Hcpu | exact (Hgpu eq_refl)].
Defined.

(** C6. When [get_active_hardware] returns an entry, the string rendering of
    the platform is the value of the operating system, the value of that
    entry's vendor and the value of the backend, in this order and joined by
    "/"; for Darwin, Nvidia and MoltenVK it is "Darwin/Nvidia/MoltenVK". *)
Theorem str_is_os_vendor_backend (p p' : ExecutionPlatform)
    (hw : HardwareInformation) :
  get_active_hardware p = (Return hw, p') →
  ExecutionPlatform_str p =
    (Return (value (operating_system p) +:+ "/" +:+
             value (hardware_vendor hw) +:+ "/" +:+
             value (vulkan_backend p)), p') ∧
  (operating_system p = Darwin → hardware_vendor hw = Nvidia →
   vulkan_backend p = MoltenVK →
   (ExecutionPlatform_str p).1 = Return "Darwin/Nvidia/MoltenVK").
Proof.
  intros Hhw.
  assert (vulkan_backend p' = vulkan_backend p) as Hb.
  { destruct (get_active_hardware_frame p) as [Hb _]. by rewrite Hhw in Hb. }
  assert (ExecutionPlatform_str p =
            (Return (value (operating_system p) +:+ "/" +:+
                     value (hardware_vendor hw) +:+ "/" +:+
                     value (vulkan_backend p)), p')) as Hstr.
  { unfold ExecutionPlatform_str, bind, get_operating_system, get_vulkan_backend,
      ret. rewrite Hhw. by rewrite Hb. }
  split; [done|]. intros Hos Hv Hbk. rewrite Hstr. simpl.
  by rewrite Hos, Hv, Hbk.
Qed.

Lemma str_is_os_vendor_backend_witness :
  (ExecutionPlatform_str
     (detected Darwin (getGPUs darwin_host) GenuineIntel "Intel Core i9")).1 =
    Return "Darwin/Nvidia/MoltenVK".
Proof.
  apply (str_is_os_vendor_backend
           (detected Darwin (getGPUs darwin_host) GenuineIntel "Intel Core i9")
           (detected Darwin (getGPUs darwin_host) GenuineIntel "Intel Core i9")
           (gpu_info_of {| gpu_name := "Apple M2"; gpu_driver := "N/A" |}));
    vm_compute; reflexivity.
Defined.

(** C7. With an accepted operating system and a usable CPU probe,
    [auto_detect] returns a platform whose GPU list has, for each GPU the
    probe reports and in the probe's order, the entry of type GPU, vendor
    Nvidia, the reported name as model and the reported driver as driver
    version. This holds for the empty list too: the pass still returns, with
    an empty GPU list. Run on any platform whose GPU key can be read (a
    [defaultdict], or the key bound), or with no GPU reported, the loop
    appends these entries after the ones the GPU list already has; on a
    plain [dict] without the GPU key a first GPU makes it raise [KeyError]
    and change nothing. *)
Theorem auto_detect_gpu_list (host : Host) (os : OperatingSystem)
    (vendor_id_raw brand_raw : string) (vendor : HardwareVendor) :
  call (platform_system host) = Return os →
  get_cpu_info host !! "vendor_id_raw" = Some vendor_id_raw →
  call vendor_id_raw = Return vendor →
  get_cpu_info host !! "brand_raw" = Some brand_raw →
  (∃ p : ExecutionPlatform,
     auto_detect host = Return p ∧
     hardware_list p GPU =
       map (λ nvidia_gpu,
              {| hardware_type := GPU;
                 hardware_vendor := Nvidia;
                 hardware_model := gpu_name nvidia_gpu;
                 driver_version := gpu_driver nvidia_gpu |}) (getGPUs host) ∧
     (getGPUs host = [] → hardware_list p GPU = [])) ∧
  (∀ p0 : ExecutionPlatform,
     getGPUs host = [] ∨
       class_of (available_hardware p0) = defaultdict ∨
       is_Some (items (available_hardware p0) !! GPU) →
     ∃ p1 : ExecutionPlatform,
     for_each (getGPUs host) (λ nvidia_gpu,
       append GPU {| hardware_type := GPU;
                     hardware_vendor := Nvidia;
                     hardware_model := gpu_name nvidia_gpu;
                     driver_version := gpu_driver nvidia_gpu |}) p0 =
       (Return tt, p1) ∧
     hardware_list p1 GPU =
       hardware_list p0 GPU ++
       map (λ nvidia_gpu,
              {| hardware_type := GPU;
                 hardware_vendor := Nvidia;
                 hardware_model := gpu_name nvidia_gpu;
                 driver_version := gpu_driver nvidia_gpu |}) (getGPUs host) ∧
     hardware_list p1 CPU = hardware_list p0 CPU) ∧
  (∀ p0 : ExecutionPlatform,
     getGPUs host ≠ [] →
     class_of (available_hardware p0) = dict →
     items (available_hardware p0) !! GPU = None →
     for_each (getGPUs host) (λ nvidia_gpu,
       append GPU {| hardware_type := GPU;
                     hardware_vendor := Nvidia;
                     hardware_model := gpu_name nvidia_gpu;
                     driver_version := gpu_driver nvidia_gpu |}) p0 =
       (Raise (KeyError "GPU"), p0)).
Proof.
  intros Hos Hv Hc Hb. split; [|split].
  - eexists. split; [by apply (auto_detect_ok _ _ _ _ _ Hos Hv Hc Hb)|].
    rewrite detected_hardware_list_GPU. split; [done|]. by intros ->.
  - intros p0 Hr.
    assert (for_each (getGPUs host) (λ g, append GPU (gpu_info_of g)) p0 =
              (Return tt, after_gpus (getGPUs host) p0)) as Hloop.
    { destruct Hr as [Hn|Hr]; [by rewrite Hn|by apply for_each_gpus]. }
    eexists. split; [exact Hloop|].
    destruct (getGPUs host) as [|g gs]; simpl.
    + by rewrite app_nil_r.
    + unfold after_gpus, with_available_hardware, hardware_list; simpl.
      by rewrite lookup_insert_eq, lookup_insert_ne.
  - intros p0 Hne Hd Hn. destruct (getGPUs host) as [|g gs]; [done|].
    by apply for_each_gpus_KeyError.
Qed.

Lemma auto_detect_gpu_list_witness :
  ∃ p : ExecutionPlatform,
    auto_detect darwin_host = Return p ∧
    hardware_list p GPU =
      [ {| hardware_type := GPU; hardware_vendor := Nvidia;
           hardware_model := "Apple M2"; driver_version := "N/A" |} ].
Proof.
  destruct (auto_detect_gpu_list darwin_host Darwin "GenuineIntel"
              "Intel Core i9" GenuineIntel
              ltac:(vm_compute; reflexivity) ltac:(vm_compute; reflexivity)
              ltac:(vm_compute; reflexivity) ltac:(vm_compute; reflexivity))
    as [(p & Hp & Hg & _) _].
  exists p. split; [exact Hp | exact Hg].
Defined.

(** C8. The lookup of the operating system accepts a string exactly when it
    is "Linux", "Darwin" or "Windows", and then returns the member of that
    name; for every other string it raises the [ValueError] of
    [OperatingSystem], and so does the construction of the platform and with
    it [auto_detect], whatever the other probes report. *)
Theorem operating_system_exact_match (s : string) :
  ((∃ os : OperatingSystem, call s = Return os) ↔
   s = "Linux" ∨ s = "Darwin" ∨ s = "Windows") ∧
  (∀ os : OperatingSystem, call s = Return os →
     value os = s ∧
     ∀ (host : Host) (b : VulkanBackend), platform_system host = s →
       cls host b =
         Return {| vulkan_backend := b; operating_system := os;
                   available_hardware :=
                     {| class_of := defaultdict; items := ∅ |} |}) ∧
  (¬ (s = "Linux" ∨ s = "Darwin" ∨ s = "Windows") →
   call (A := OperatingSystem) s = Raise (ValueError s "OperatingSystem") ∧
   ∀ host : Host, platform_system host = s →
     (∀ b : VulkanBackend,
        cls host b = Raise (ValueError s "OperatingSystem")) ∧
     auto_detect host = Raise (ValueError s "OperatingSystem")).
Proof.
  assert (¬ (s = "Linux" ∨ s = "Darwin" ∨ s = "Windows") →
          call (A := OperatingSystem) s = Raise (ValueError s "OperatingSystem"))
    as Hbad.
  { intros Hn. rewrite call_OperatingSystem.
    destruct (String.eqb_spec "Linux" s); [naive_solver|].
    destruct (String.eqb_spec "Darwin" s); [naive_solver|].
    destruct (String.eqb_spec "Windows" s); [naive_solver|done]. }
  split; [|split].
  - split.
    + intros [os Hos].
      destruct (decide (s = "Linux")) as [|H1]; [by left|].
      destruct (decide (s = "Darwin")) as [|H2]; [by right; left|].
      destruct (decide (s = "Windows")) as [|H3]; [by right; right|].
      rewrite Hbad in Hos; [discriminate Hos|]. by intros [?|[?|?]].
    + intros [-> | [-> | ->]]; by eexists.
  - intros os Hos. split; [by apply call_Return_value|].
    intros host b <-. unfold cls. by rewrite Hos.
  - intros Hn. split; [by apply Hbad|]. intros host <-. split.
    + intros b. unfold cls. by rewrite (Hbad Hn).
    + apply auto_detect_bad_os. by apply Hbad.
Qed.

Lemma operating_system_exact_match_witness :
  call (A := OperatingSystem) "Darwin" = Return Darwin ∧
  auto_detect {| platform_system := "Java";
                 getGPUs := getGPUs darwin_host;
                 get_cpu_info := get_cpu_info darwin_host |} =
    Raise (ValueError "Java" "OperatingSystem").
Proof.
  destruct (operating_system_exact_match "Java") as (_ & _ & Hbad).
  split; [reflexivity|].
  assert (¬ ("Java" = "Linux" ∨ "Java" = "Darwin" ∨ "Java" = "Windows"))
    as Hn by (by intros [[=] | [[=] | [=]]]).
  destruct (Hbad Hn) as [_ Hhost]. apply Hhost. reflexivity.
Defined.

(** C9. A platform returned by [auto_detect] has a CPU entry, the only one
    of its CPU list, built from the CPU probe: its type is CPU, its model is
    the reported brand and its driver version is "N/A". No entry of type
    CPU, in either list, has another driver version. Whatever a usable CPU
    probe reports, the pass returns such a platform. *)
Theorem auto_detect_cpu_driver_version (host : Host) (p : ExecutionPlatform) :
  auto_detect host = Return p →
  (∃ cpu_info : HardwareInformation,
     hardware_list p CPU = [cpu_info] ∧
     hardware_type cpu_info = CPU ∧
     get_cpu_info host !! "brand_raw" = Some (hardware_model cpu_info) ∧
     driver_version cpu_info = "N/A") ∧
  (∀ hw : HardwareInformation, hw ∈ hardware_list p CPU →
     hardware_type hw = CPU ∧ driver_version hw = "N/A") ∧
  (∀ (t : HardwareType) (hw : HardwareInformation),
     hw ∈ hardware_list p t → hardware_type hw = CPU →
     driver_version hw = "N/A") ∧
  (∀ (host' : Host) (os : OperatingSystem) (vendor_id_raw brand_raw : string)
     (vendor : HardwareVendor),
     call (platform_system host') = Return os →
     get_cpu_info host' !! "vendor_id_raw" = Some vendor_id_raw →
     call vendor_id_raw = Return vendor →
     get_cpu_info host' !! "brand_raw" = Some brand_raw →
     ∃ p' : ExecutionPlatform,
       auto_detect host' = Return p' ∧
       hardware_list p' CPU =
         [ {| hardware_type := CPU; hardware_vendor := vendor;
              hardware_model := brand_raw; driver_version := "N/A" |} ]).
Proof.
  intros Hp.
  destruct (auto_detect_inv _ _ Hp)
    as (os & vr & v & br & _ & _ & _ & Hb & ->).
  assert (∀ hw, hw ∈ hardware_list (detected os (getGPUs host) v br) CPU →
                hardware_type hw = CPU ∧ driver_version hw = "N/A") as Hcpu.
  { intros hw. rewrite detected_hardware_list_CPU.
    by intros ->%list_elem_of_singleton. }
  split; [|split; [done|split]].
  - exists (cpu_info_of v br). by rewrite detected_hardware_list_CPU.
  - intros [] hw Hin Ht; [by apply Hcpu|].
    rewrite detected_hardware_list_GPU in Hin.
    apply list_elem_of_fmap in Hin as (g & -> & _). discriminate Ht.
  - intros host' os' vr' br' v' Hos' Hv' Hc' Hb'. eexists.
    split; [by apply (auto_detect_ok _ _ _ _ _ Hos' Hv' Hc' Hb')|].
    by rewrite detected_hardware_list_CPU.
Qed.

Lemma auto_detect_cpu_driver_version_witness :
  ∃ cpu_info : HardwareInformation,
    hardware_list (detected Linux [] GenuineIntel "Intel Xeon") CPU =
      [cpu_info] ∧
    driver_version cpu_info = "N/A".
Proof.
  destruct (auto_detect_cpu_driver_version linux_host
              (detected Linux [] GenuineIntel "Intel Xeon")
              ltac:(vm_compute; reflexivity))
    as ((cpu_info & Hl & _ & _ & Hd) & _).
  exists cpu_info. split; [exact Hl | exact Hd].
Defined.

(** C10, as the code has it. On the [defaultdict] of the default factory,
    [get_active_hardware] mutates the dictionary it reads: a GPU key that is
    absent is bound to the empty list, and so is an absent CPU key when the
    GPU list is empty, also when the call then raises. On a plain [dict] the
    call changes nothing, and an absent key it reads raises [KeyError].
    Whatever the dictionary, a key that was bound keeps its list, the key
    set does not shrink, and the two other fields and the class of the
    dictionary keep their values. *)
Theorem get_active_hardware_binds_keys (p : ExecutionPlatform) :
  (class_of (available_hardware p) = defaultdict →
   (items (available_hardware p) !! GPU = None →
    items (available_hardware (get_active_hardware p).2) !! GPU = Some []) ∧
   (hardware_list p GPU = [] → items (available_hardware p) !! CPU = None →
    items (available_hardware (get_active_hardware p).2) !! CPU = Some [])) ∧
  (class_of (available_hardware p) = dict →
   (get_active_hardware p).2 = p ∧
   (items (available_hardware p) !! GPU = None →
    (get_active_hardware p).1 = Raise (KeyError "GPU")) ∧
   (items (available_hardware p) !! GPU = Some [] →
    items (available_hardware p) !! CPU = None →
    (get_active_hardware p).1 = Raise (KeyError "CPU"))) ∧
  (∀ (t : HardwareType) (l : list HardwareInformation),
     items (available_hardware p) !! t = Some l →
     items (available_hardware (get_active_hardware p).2) !! t = Some l) ∧
  dom (items (available_hardware p)) ⊆
    dom (items (available_hardware (get_active_hardware p).2)) ∧
  vulkan_backend (get_active_hardware p).2 = vulkan_backend p ∧
  operating_system (get_active_hardware p).2 = operating_system p ∧
  class_of (available_hardware (get_active_hardware p).2) =
    class_of (available_hardware p).
Proof.
  destruct (get_active_hardware_frame p) as (Hb & Hos & Hcl & Hkeep).
  split; [|split; [|split; [done|split; [|done]]]].
  - intros Hd. split.
    + intros Hn. rewrite (get_active_hardware_no_gpu _ Hd)
        by (by apply hardware_list_None).
      simpl. by rewrite lookup_insert_ne, lookup_insert_eq.
    + intros Hg Hn. rewrite (get_active_hardware_no_gpu _ Hd Hg). simpl.
      rewrite lookup_insert_eq. by rewrite (hardware_list_None _ _ Hn).
  - intros Hd. split; [by apply get_active_hardware_dict_state|]. split.
    + intros Hn. by rewrite (get_active_hardware_dict_no_GPU_key _ Hd Hn).
    + intros Hg Hn. by rewrite (get_active_hardware_dict_no_CPU_key _ Hd Hg Hn).
  - intros t [l Ht]%elem_of_dom. apply elem_of_dom. eexists. by apply Hkeep.
Qed.

Lemma get_active_hardware_binds_keys_witness :
  items (available_hardware (get_active_hardware bare_platform).2) !! GPU =
    Some [] ∧
  items (available_hardware (get_active_hardware bare_platform).2) !! CPU =
    Some [] ∧
  (get_active_hardware empty_dict_platform).2 = empty_dict_platform ∧
  items (available_hardware
           (get_active_hardware
              (detected Linux [] GenuineIntel "Intel Xeon")).2) !! CPU =
    Some [cpu_info_of GenuineIntel "Intel Xeon"].
Proof.
  destruct (get_active_hardware_binds_keys bare_platform) as (Hdd & _).
  destruct (Hdd eq_refl) as [Hg Hc].
  destruct (get_active_hardware_binds_keys empty_dict_platform)
    as (_ & Hdict & _).
  destruct (get_active_hardware_binds_keys
              (detected Linux [] GenuineIntel "Intel Xeon"))
    as (_ & _ & Hk & _).
  split; [apply Hg; reflexivity|].
  split; [apply Hc; reflexivity|].
  split; [exact (proj1 (Hdict eq_refl))|].
  apply Hk. vm_compute. reflexivity.
Defined.

(** C10, as stated, fails: the platform built with the constructor from the
    empty dictionary has no entry for the GPU key, and [get_active_hardware]
    on it raises [KeyError] and inserts nothing. *)
Lemma empty_dict_platform_binds_nothing :
  items (available_hardware empty_dict_platform) !! GPU = None ∧
  get_active_hardware empty_dict_platform =
    (Raise (KeyError "GPU"), empty_dict_platform) ∧
  items (available_hardware (get_active_hardware empty_dict_platform).2) !! GPU =
    None ∧
  ¬ (∀ p : ExecutionPlatform,
       items (available_hardware p) !! GPU = None →
       items (available_hardware (get_active_hardware p).2) !! GPU = Some []).
Proof.
  split; [reflexivity|]. split; [reflexivity|]. split; [reflexivity|].
  intros Hall. specialize (Hall empty_dict_platform eq_refl).
  discriminate Hall.
Qed.
(** ** Further properties: the enumerations *)

(** X3. On each of the four enumerations of the module, [==] between members
    holds exactly between a member and itself, and the value of a member
    looks that member up again: no two members share a value. *)
Theorem members_compare_by_identity :
  (∀ a b : OperatingSystem,
     (eqb a b = true ↔ a = b) ∧ call (value a) = Return a) ∧
  (∀ a b : HardwareType,
     (eqb a b = true ↔ a = b) ∧ call (value a) = Return a) ∧
  (∀ a b : HardwareVendor,
     (eqb a b = true ↔ a = b) ∧ call (value a) = Return a) ∧
  (∀ a b : VulkanBackend,
     (eqb a b = true ↔ a = b) ∧ call (value a) = Return a).
Proof.
  repeat split; try (by intros ->; destruct b);
    try (by destruct a); by destruct a, b.
Qed.

(** ** Further properties: the metaclass *)

Lemma setitem_fresh (d : list (string * pyobj)) (k : string) (v : pyobj) :
  k ∉ map fst d → setitem d k v = d ++ [(k, v)].
Proof.
  induction d as [|[k' v'] d IH]; intros Hk; [done|]. simpl.
  destruct (String.eqb_spec k' k) as [->|Hne].
  - exfalso. apply Hk. simpl. apply list_elem_of_here.
  - rewrite IH; [done|]. intros Hin. apply Hk. simpl.
    by apply list_elem_of_further.
Qed.

Lemma scan_fresh (items d : list (string * pyobj)) :
  NoDup (map fst d ++ map fst items) →
  scan items d =
    d ++ map (λ kv, (kv.1, if is_empty_tuple kv.2 then PyStr kv.1 else kv.2))
             items.
Proof.
  revert d. induction items as [|[k v] items IH]; intros d Hnd; simpl.
  - by rewrite app_nil_r.
  - assert (k ∉ map fst d) as Hk.
    { apply NoDup_app in Hnd as (_ & Hdisj & _). intros Hin.
      apply (Hdisj k Hin). simpl. apply list_elem_of_here. }
    rewrite setitem_fresh by done. rewrite IH.
    + by rewrite <- app_assoc.
    + rewrite map_app. simpl. by rewrite <- app_assoc.
Qed.

Lemma StrEnumMeta_new_map (oldclassdict : list (string * pyobj)) :
  NoDup (map fst oldclassdict) →
  StrEnumMeta_new oldclassdict =
    map (λ kv, (kv.1, if is_empty_tuple kv.2 then PyStr kv.1 else kv.2))
        oldclassdict.
Proof. intros Hnd. unfold StrEnumMeta_new. by rewrite scan_fresh. Qed.

(** X4. [StrEnumMeta.__new__] hands on a class dictionary with the keys of
    the class body in their order (a dictionary has no key twice), in which
    every name bound to [()] is bound to the name itself, as a string, and
    every other name keeps its value. No name is bound to [()] afterwards,
    and a second pass changes nothing. *)
Theorem StrEnumMeta_new_names_values (oldclassdict : list (string * pyobj)) :
  NoDup (map fst oldclassdict) →
  StrEnumMeta_new oldclassdict =
    map (λ kv, (kv.1, if is_empty_tuple kv.2 then PyStr kv.1 else kv.2))
        oldclassdict ∧
  map fst (StrEnumMeta_new oldclassdict) = map fst oldclassdict ∧
  (∀ kv : string * pyobj,
     kv ∈ StrEnumMeta_new oldclassdict → is_empty_tuple kv.2 = false) ∧
  StrEnumMeta_new (StrEnumMeta_new oldclassdict) = StrEnumMeta_new oldclassdict.
Proof.
  intros Hnd.
  assert (StrEnumMeta_new oldclassdict =
            map (λ kv, (kv.1, if is_empty_tuple kv.2 then PyStr kv.1 else kv.2))
                oldclassdict) as Hnew.
  { by apply StrEnumMeta_new_map. }
  assert (map fst (StrEnumMeta_new oldclassdict) = map fst oldclassdict)
    as Hkeys.
  { rewrite Hnew, map_map. by apply map_ext. }
  assert (∀ kv : string * pyobj,
            kv ∈ StrEnumMeta_new oldclassdict → is_empty_tuple kv.2 = false)
    as Hnone.
  { intros kv. rewrite Hnew. intros ([k v] & -> & _)%list_elem_of_fmap. simpl.
    by destruct v. }
  split; [done|]. split; [done|]. split; [done|].
  unfold StrEnumMeta_new at 1. rewrite scan_fresh by (by rewrite Hkeys).
  simpl. rewrite <- (map_id (StrEnumMeta_new oldclassdict)) at 2.
  apply map_ext_in. intros [k v] Hin%list_elem_of_In.
  pose proof (Hnone _ Hin) as Hv. simpl in *. by rewrite Hv.
Qed.

Lemma StrEnumMeta_new_names_values_witness :
  StrEnumMeta_new
    [("__qualname__", PyStr "HardwareType"); ("CPU", PyEmptyTuple);
     ("GPU", PyEmptyTuple)] =
    [("__qualname__", PyStr "HardwareType"); ("CPU", PyStr "CPU");
     ("GPU", PyStr "GPU")].
Proof.
  refine (proj1 (StrEnumMeta_new_names_values
                   [("__qualname__", PyStr "HardwareType");
                    ("CPU", PyEmptyTuple); ("GPU", PyEmptyTuple)] _)).
  repeat (apply NoDup_cons; split;
          [by intros ?%list_elem_of_In; simpl in *; intuition discriminate|]).
  apply NoDup_nil_2.
Defined.

(** X5. For a [StrEnum] class whose members have distinct names and are all
    declared with [()], the metaclass gives every member the value of its
    name: the values that [value] reads. *)
Theorem StrEnumMeta_new_member_values {A : Type} `{StrEnum A} :
  NoDup (map name members) →
  StrEnumMeta_new (map (λ m : A, (name m, PyEmptyTuple)) members) =
    map (λ m : A, (name m, PyStr (value m))) members.
Proof.
  intros Hnd. rewrite StrEnumMeta_new_map by (by rewrite map_map).
  by rewrite map_map.
Qed.

Lemma StrEnumMeta_new_member_values_witness :
  StrEnumMeta_new
    (map (λ m : VulkanBackend, (name m, PyEmptyTuple)) members) =
    [("MoltenVK", PyStr "MoltenVK"); ("SwiftShader", PyStr "SwiftShader");
     ("Vulkan", PyStr "Vulkan")].
Proof.
  rewrite (StrEnumMeta_new_member_values (A := VulkanBackend)); [reflexivity|].
  repeat (apply NoDup_cons; split;
          [by intros ?%list_elem_of_In; simpl in *; intuition discriminate|]).
  apply NoDup_nil_2.
Defined.

(** ** Further properties: auto_detect *)

Lemma OperatingSystem_accepts (s : string) :
  (∃ os : OperatingSystem, call s = Return os) ↔
  s = "Linux" ∨ s = "Darwin" ∨ s = "Windows".
Proof.
  rewrite call_OperatingSystem.
  destruct (String.eqb_spec "Linux" s) as [E|H1]; [subst s; by split; eauto|].
  destruct (String.eqb_spec "Darwin" s) as [E|H2]; [subst s; by split; eauto|].
  destruct (String.eqb_spec "Windows" s) as [E|H3]; [subst s; by split; eauto|].
  split; [by intros [os [=]]|]. by intros [-> | [-> | ->]].
Qed.

Lemma HardwareVendor_accepts (s : string) :
  (∃ v : HardwareVendor, call s = Return v) ↔
  s = "GenuineIntel" ∨ s = "Nvidia".
Proof.
  rewrite call_HardwareVendor.
  destruct (String.eqb_spec "GenuineIntel" s) as [E|H1]; [subst s; by split; eauto|].
  destruct (String.eqb_spec "Nvidia" s) as [E|H2]; [subst s; by split; eauto|].
  split; [by intros [v [=]]|]. by intros [-> | ->].
Qed.

(** X6. [auto_detect] returns a platform exactly when the operating system is
    one of the three names, the CPU information has the vendor identifier of
    a member of [HardwareVendor], and it has a brand; the GPUs play no part
    in it. *)
Theorem auto_detect_returns_iff (host : Host) :
  (∃ p : ExecutionPlatform, auto_detect host = Return p) ↔
  (platform_system host = "Linux" ∨ platform_system host = "Darwin" ∨
   platform_system host = "Windows") ∧
  (get_cpu_info host !! "vendor_id_raw" = Some "GenuineIntel" ∨
   get_cpu_info host !! "vendor_id_raw" = Some "Nvidia") ∧
  is_Some (get_cpu_info host !! "brand_raw").
Proof.
  split.
  - intros [p Hp].
    destruct (auto_detect_inv _ _ Hp) as (os & vr & v & br & Hos & Hv & Hc & Hb & _).
    split; [apply OperatingSystem_accepts; eauto|]. split; [|by rewrite Hb].
    rewrite Hv.
    destruct (proj1 (HardwareVendor_accepts vr)) as [->| ->]; eauto.
  - intros (Hos & Hv & [br Hb]).
    apply OperatingSystem_accepts in Hos as [os Hos].
    destruct Hv as [Hv|Hv].
    + eexists. by apply (auto_detect_ok _ os "GenuineIntel" br GenuineIntel).
    + eexists. by apply (auto_detect_ok _ os "Nvidia" br Nvidia).
Qed.

(** X7. On an accepted operating system, CPU information without the key
    "vendor_id_raw" makes [auto_detect] raise the [KeyError] of that key; with
    a recognised vendor and without the key "brand_raw" it raises the
    [KeyError] of "brand_raw"; the vendor is classified before the brand is
    read, so an unrecognised vendor raises its [ValueError] whether or not
    the brand is there. *)
Theorem auto_detect_missing_key (host : Host) (os : OperatingSystem) :
  call (platform_system host) = Return os →
  (get_cpu_info host !! "vendor_id_raw" = None →
   auto_detect host = Raise (KeyError "vendor_id_raw")) ∧
  (∀ (vendor_id_raw : string) (vendor : HardwareVendor),
     get_cpu_info host !! "vendor_id_raw" = Some vendor_id_raw →
     call vendor_id_raw = Return vendor →
     get_cpu_info host !! "brand_raw" = None →
     auto_detect host = Raise (KeyError "brand_raw")) ∧
  (∀ vendor_id_raw : string,
     get_cpu_info host !! "vendor_id_raw" = Some vendor_id_raw →
     vendor_id_raw ≠ "GenuineIntel" → vendor_id_raw ≠ "Nvidia" →
     auto_detect host = Raise (ValueError vendor_id_raw "HardwareVendor")).
Proof.
  intros Hos. split; [|split].
  - intros Hv. unfold auto_detect, cls. rewrite Hos.
    by rewrite detect_no_vendor_key.
  - intros vr v Hv Hc Hb. unfold auto_detect, cls. rewrite Hos.
    by rewrite detect_no_brand_key with (vendor_id_raw := vr) (vendor := v).
  - intros vr Hv H1 H2. apply auto_detect_bad_vendor with os vr; [done..|].
    rewrite call_HardwareVendor.
    destruct (String.eqb_spec "GenuineIntel" vr); [congruence|].
    by destruct (String.eqb_spec "Nvidia" vr); [congruence|].
Qed.

Lemma auto_detect_missing_key_witness :
  auto_detect {| platform_system := "Windows"; getGPUs := [];
                 get_cpu_info := {[ "brand_raw" := "Apple M2" ]} |} =
    Raise (KeyError "vendor_id_raw") ∧
  auto_detect {| platform_system := "Windows"; getGPUs := [];
                 get_cpu_info := {[ "vendor_id_raw" := "GenuineIntel" ]} |} =
    Raise (KeyError "brand_raw") ∧
  auto_detect {| platform_system := "Windows"; getGPUs := [];
                 get_cpu_info := {[ "vendor_id_raw" := "AuthenticAMD" ]} |} =
    Raise (ValueError "AuthenticAMD" "HardwareVendor").
Proof.
  split; [|split].
  - apply (proj1 (auto_detect_missing_key
                    {| platform_system := "Windows"; getGPUs := [];
                       get_cpu_info := {[ "brand_raw" := "Apple M2" ]} |}
                    Windows ltac:(vm_compute; reflexivity)));
      vm_compute; reflexivity.
  - apply (proj1 (proj2 (auto_detect_missing_key
                    {| platform_system := "Windows"; getGPUs := [];
                       get_cpu_info := {[ "vendor_id_raw" := "GenuineIntel" ]} |}
                    Windows ltac:(vm_compute; reflexivity)))
                 "GenuineIntel" GenuineIntel);
      vm_compute; reflexivity.
  - apply (proj2 (proj2 (auto_detect_missing_key
                    {| platform_system := "Windows"; getGPUs := [];
                       get_cpu_info := {[ "vendor_id_raw" := "AuthenticAMD" ]} |}
                    Windows ltac:(vm_compute; reflexivity)))
                 "AuthenticAMD");
      [vm_compute; reflexivity | by intros [=] | by intros [=]].
Defined.

(** X8. [auto_detect] never chooses SwiftShader, and it chooses MoltenVK
    exactly when the operating system is "Darwin". *)
Theorem auto_detect_never_swiftshader (host : Host) (p : ExecutionPlatform) :
  auto_detect host = Return p →
  vulkan_backend p ≠ SwiftShader ∧
  (vulkan_backend p = MoltenVK ↔ platform_system host = "Darwin").
Proof.
  intros Hp.
  destruct (auto_detect_inv _ _ Hp) as (os & vr & v & br & Hos & _ & _ & _ & ->).
  apply call_Return_value in Hos. rewrite <- Hos.
  split; [by destruct os|]. by destruct os.
Qed.

Lemma auto_detect_never_swiftshader_witness :
  vulkan_backend (detected Windows [] GenuineIntel "Intel Xeon") ≠ SwiftShader.
Proof.
  apply (auto_detect_never_swiftshader
           {| platform_system := "Windows"; getGPUs := [];
              get_cpu_info := get_cpu_info linux_host |}).
  vm_compute. reflexivity.
Defined.

(** X9. A returned platform holds the strings of the probes as they were
    reported: the value of its operating system is the reported system, the
    CPU entry has the reported vendor identifier as the value of its vendor
    and the reported brand as its model, and the GPU entries carry the
    reported names and drivers, in order. *)
Theorem auto_detect_keeps_probe_strings (host : Host) (p : ExecutionPlatform) :
  auto_detect host = Return p →
  value (operating_system p) = platform_system host ∧
  (∃ cpu_info : HardwareInformation,
     hardware_list p CPU = [cpu_info] ∧
     get_cpu_info host !! "vendor_id_raw" =
       Some (value (hardware_vendor cpu_info)) ∧
     get_cpu_info host !! "brand_raw" = Some (hardware_model cpu_info)) ∧
  map hardware_model (hardware_list p GPU) = map gpu_name (getGPUs host) ∧
  map driver_version (hardware_list p GPU) = map gpu_driver (getGPUs host).
Proof.
  intros Hp.
  destruct (auto_detect_inv _ _ Hp)
    as (os & vr & v & br & Hos & Hv & Hc & Hb & ->).
  rewrite detected_hardware_list_CPU, detected_hardware_list_GPU.
  split; [by apply call_Return_value|]. split.
  - eexists. split; [done|]. split; [|done].
    rewrite Hv. f_equal. symmetry. by apply call_Return_value.
  - by rewrite !map_map.
Qed.

Lemma auto_detect_keeps_probe_strings_witness :
  value (operating_system
           (detected Darwin (getGPUs darwin_host) GenuineIntel "Intel Core i9")) =
    "Darwin".
Proof.
  apply (auto_detect_keeps_probe_strings darwin_host).
  vm_compute. reflexivity.
Defined.

(** X10. A returned platform holds the [defaultdict] of the default factory;
    its CPU key is always bound, and its GPU key is bound exactly when the
    probe reported a GPU: with no GPU the loop never reads the dictionary. *)
Theorem auto_detect_bound_keys (host : Host) (p : ExecutionPlatform) :
  auto_detect host = Return p →
  class_of (available_hardware p) = defaultdict ∧
  is_Some (items (available_hardware p) !! CPU) ∧
  (items (available_hardware p) !! GPU = None ↔ getGPUs host = []).
Proof.
  intros Hp.
  destruct (auto_detect_inv _ _ Hp) as (os & vr & v & br & _ & _ & _ & _ & ->).
  unfold detected; simpl. rewrite lookup_insert_eq, lookup_insert_ne by done.
  split; [done|]. split; [done|]. destruct (getGPUs host); simpl; [done|].
  by rewrite lookup_singleton_eq.
Qed.

Lemma auto_detect_bound_keys_witness :
  items (available_hardware (detected Linux [] GenuineIntel "Intel Xeon")) !! GPU =
    None.
Proof.
  apply (proj2 (proj2 (auto_detect_bound_keys linux_host
                  (detected Linux [] GenuineIntel "Intel Xeon")
                  ltac:(vm_compute; reflexivity)))).
  reflexivity.
Defined.

(** ** Further properties: the accessor and the rendering *)

(** X11. After a detection pass the active hardware is the entry of the first
    GPU the probe reported, read without any change to the platform; with no
    GPU reported it is the CPU entry, and the read binds the GPU key. *)
Theorem auto_detect_active_hardware (host : Host) (p : ExecutionPlatform) :
  auto_detect host = Return p →
  (∀ (g : GPUtil_GPU) (gs : list GPUtil_GPU), getGPUs host = g :: gs →
     get_active_hardware p = (Return (gpu_info_of g), p)) ∧
  (getGPUs host = [] →
   (∃ cpu_info : HardwareInformation,
      hardware_list p CPU = [cpu_info] ∧
      (get_active_hardware p).1 = Return cpu_info) ∧
   items (available_hardware p) !! GPU = None ∧
   items (available_hardware (get_active_hardware p).2) !! GPU = Some []).
Proof.
  intros Hp.
  destruct (auto_detect_inv _ _ Hp) as (os & vr & v & br & _ & _ & _ & _ & ->).
  split.
  - intros g gs Hg. apply get_active_hardware_gpu with (map gpu_info_of gs).
    by rewrite detected_hardware_list_GPU, Hg.
  - intros Hg.
    assert (hardware_list (detected os (getGPUs host) v br) GPU = []) as Hl
      by (by rewrite detected_hardware_list_GPU, Hg).
    rewrite (get_active_hardware_no_gpu _ (detected_class _ _ _ _) Hl),
      detected_hardware_list_CPU.
    split; [by eexists|]. rewrite Hg. simpl. split.
    + by rewrite lookup_insert_ne.
    + by rewrite lookup_insert_ne, lookup_insert_eq.
Qed.

Lemma auto_detect_active_hardware_witness :
  get_active_hardware
    (detected Darwin (getGPUs darwin_host) GenuineIntel "Intel Core i9") =
    (Return (gpu_info_of {| gpu_name := "Apple M2"; gpu_driver := "N/A" |}),
     detected Darwin (getGPUs darwin_host) GenuineIntel "Intel Core i9").
Proof.
  apply (proj1 (auto_detect_active_hardware darwin_host
                  (detected Darwin (getGPUs darwin_host) GenuineIntel
                     "Intel Core i9")
                  ltac:(vm_compute; reflexivity))
               {| gpu_name := "Apple M2"; gpu_driver := "N/A" |} []).
  reflexivity.
Defined.

(** X12. A second call of [get_active_hardware] gives the result of the first,
    an exception included, and changes nothing more: on a [defaultdict] the
    keys the first call bound stay as they are, and on a plain [dict] the
    first call changed nothing. *)
Theorem get_active_hardware_twice (p : ExecutionPlatform) :
  get_active_hardware (get_active_hardware p).2 = get_active_hardware p.
Proof.
  destruct (class_of (available_hardware p)) eqn:Hd.
  - by rewrite (get_active_hardware_dict_state _ Hd).
  - destruct (hardware_list p GPU) as [|g gs] eqn:Hg.
    + rewrite (get_active_hardware_no_gpu _ Hd Hg). simpl.
      rewrite get_active_hardware_no_gpu.
      * unfold hardware_list, with_available_hardware; simpl.
        rewrite lookup_insert_eq; simpl. do 3 f_equal.
        apply map_eq. intros [].
        -- by rewrite !lookup_insert_eq.
        -- rewrite !(lookup_insert_ne _ CPU GPU) by done.
           by rewrite !lookup_insert_eq.
      * done.
      * unfold hardware_list; simpl.
        rewrite lookup_insert_ne by done. by rewrite lookup_insert_eq.
    + rewrite (get_active_hardware_gpu _ _ _ Hg). simpl.
      by apply get_active_hardware_gpu with gs.
Qed.

(** X13. [get_active_hardware] raises in three cases only. It raises
    [IndexError] exactly when the reads of the keys go through (a
    [defaultdict], or both keys bound) and the GPU list and the CPU list are
    both empty. It raises the [KeyError] of the GPU key exactly on a plain
    [dict] without that key, and the [KeyError] of the CPU key exactly on a
    plain [dict] that binds the GPU key to the empty list and has no CPU
    key. *)
Theorem get_active_hardware_raises_iff (p : ExecutionPlatform) (e : exn) :
  (get_active_hardware p).1 = Raise e ↔
  (e = IndexError ∧
   hardware_list p GPU = [] ∧ hardware_list p CPU = [] ∧
   (class_of (available_hardware p) = defaultdict ∨
    (is_Some (items (available_hardware p) !! GPU) ∧
     is_Some (items (available_hardware p) !! CPU)))) ∨
  (e = KeyError "GPU" ∧
   class_of (available_hardware p) = dict ∧
   items (available_hardware p) !! GPU = None) ∨
  (e = KeyError "CPU" ∧
   class_of (available_hardware p) = dict ∧
   items (available_hardware p) !! GPU = Some [] ∧
   items (available_hardware p) !! CPU = None).
Proof.
  destruct (class_of (available_hardware p)) eqn:Hd.
  - destruct (items (available_hardware p) !! GPU) as [[|g gs]|] eqn:Hg.
    + destruct (items (available_hardware p) !! CPU) as [[|c cs]|] eqn:Hc.
      * rewrite (get_active_hardware_bound _ _ Hg Hc). simpl.
        rewrite (hardware_list_Some _ _ _ Hg), (hardware_list_Some _ _ _ Hc).
        split.
        -- intros [= <-]. left. split; [done|]. split; [done|]. split; [done|].
           right. by split; eexists.
        -- by intros [(-> & _)|[(_ & _ & [=])|(_ & _ & _ & [=])]].
      * rewrite (get_active_hardware_bound _ _ Hg Hc). simpl.
        rewrite (hardware_list_Some _ _ _ Hc).
        split; [done|].
        by intros [(_ & _ & [=] & _)|[(_ & _ & [=])|(_ & _ & _ & [=])]].
      * rewrite (get_active_hardware_dict_no_CPU_key _ Hd Hg Hc). simpl.
        split.
        -- intros [= <-]. right. right. done.
        -- intros [(_ & _ & _ & [[=]|[_ [c' [=]]]])|[(_ & _ & [=])|(-> & _)]].
           done.
    + rewrite (get_active_hardware_gpu _ g gs (hardware_list_Some _ _ _ Hg)).
      simpl. rewrite (hardware_list_Some _ _ _ Hg).
      split; [done|].
      by intros [(_ & [=] & _)|[(_ & _ & [=])|(_ & _ & [=] & _)]].
    + rewrite (get_active_hardware_dict_no_GPU_key _ Hd Hg). simpl.
      split.
      * intros [= <-]. right. left. done.
      * intros [(_ & _ & _ & [[=]|[[g' [=]] _]])|[(-> & _)|(_ & _ & [=] & _)]].
        done.
  - destruct (hardware_list p GPU) as [|g gs] eqn:Hg.
    + rewrite (get_active_hardware_no_gpu _ Hd Hg). simpl.
      destruct (hardware_list p CPU) as [|c cs]; simpl.
      * split.
        -- intros [= <-]. left. split; [done|]. split; [done|]. split; [done|].
           by left.
        -- by intros [(-> & _)|[(_ & [=] & _)|(_ & [=] & _)]].
      * split; [done|].
        by intros [(_ & _ & [=] & _)|[(_ & [=] & _)|(_ & [=] & _)]].
    + rewrite (get_active_hardware_gpu _ _ _ Hg). simpl.
      split; [done|].
      by intros [(_ & [=] & _)|[(_ & [=] & _)|(_ & [=] & _)]].
Qed.

(** X14. The rendering [__str__] leaves the platform in the state
    [get_active_hardware] leaves it in, bound keys included, and raises
    exactly when [get_active_hardware] does, with the same exception: on the
    platform as built by the default factories it raises [IndexError], and
    on a plain [dict] without the GPU key it raises the [KeyError] of that
    key and changes nothing. *)
Theorem str_follows_get_active_hardware (p : ExecutionPlatform) :
  (ExecutionPlatform_str p).2 = (get_active_hardware p).2 ∧
  (∀ e : exn,
     (ExecutionPlatform_str p).1 = Raise e ↔
     (get_active_hardware p).1 = Raise e) ∧
  (class_of (available_hardware p) = defaultdict →
   hardware_list p GPU = [] → hardware_list p CPU = [] →
   (ExecutionPlatform_str p).1 = Raise IndexError) ∧
  (class_of (available_hardware p) = dict →
   items (available_hardware p) !! GPU = None →
   ExecutionPlatform_str p = (Raise (KeyError "GPU"), p)).
Proof.
  assert ((ExecutionPlatform_str p).2 = (get_active_hardware p).2 ∧
          ∀ e : exn,
            (ExecutionPlatform_str p).1 = Raise e ↔
            (get_active_hardware p).1 = Raise e) as [Hst Herr].
  { unfold ExecutionPlatform_str, bind, get_operating_system,
      get_vulkan_backend, ret.
    destruct (get_active_hardware p) as [[hw|e'] p']; simpl;
      (split; [done|]); intros e; split; intros He; try discriminate He;
      by injection He as ->. }
  split; [done|]. split; [done|]. split.
  - intros Hd Hg Hc. apply Herr.
    rewrite (get_active_hardware_no_gpu _ Hd Hg). simpl. by rewrite Hc.
  - intros Hd Hn.
    unfold ExecutionPlatform_str, bind, get_operating_system.
    by rewrite (get_active_hardware_dict_no_GPU_key _ Hd Hn).
Qed.

Lemma str_follows_get_active_hardware_witness :
  (ExecutionPlatform_str bare_platform).1 = Raise IndexError ∧
  items (available_hardware (ExecutionPlatform_str bare_platform).2) !! CPU =
    Some [] ∧
  ExecutionPlatform_str cpu_only_dict_platform =
    (Raise (KeyError "GPU"), cpu_only_dict_platform).
Proof.
  destruct (str_follows_get_active_hardware bare_platform)
    as (Hst & _ & Hraise & _).
  destruct (str_follows_get_active_hardware cpu_only_dict_platform)
    as (_ & _ & _ & Hkey).
  split; [apply Hraise; reflexivity|].
  split; [rewrite Hst; reflexivity|]. apply Hkey; reflexivity.
Defined.

(** X15. The rendering of a platform that [auto_detect] returned is made of
    the probe strings alone: the reported system, then "Nvidia" when a GPU
    was reported and the reported CPU vendor identifier otherwise, then
    "MoltenVK" on "Darwin" and "Vulkan" otherwise. It never raises. *)
Theorem auto_detect_str (host : Host) (p : ExecutionPlatform) :
  auto_detect host = Return p →
  ∃ vendor_id_raw : string,
    get_cpu_info host !! "vendor_id_raw" = Some vendor_id_raw ∧
    (ExecutionPlatform_str p).1 =
      Return (platform_system host +:+ "/" +:+
              (match getGPUs host with
               | [] => vendor_id_raw
               | _ :: _ => "Nvidia"
               end) +:+ "/" +:+
              (if String.eqb (platform_system host) "Darwin"
               then "MoltenVK" else "Vulkan")).
Proof.
  intros Hp.
  destruct (auto_detect_inv _ _ Hp)
    as (os & vr & v & br & Hos & Hv & Hc & _ & ->).
  exists vr. split; [done|].
  apply call_Return_value in Hos, Hc. rewrite <- Hos, <- Hc.
  unfold ExecutionPlatform_str, bind, get_operating_system, get_vulkan_backend,
    ret.
  destruct (getGPUs host) as [|g gs] eqn:Hg.
  - rewrite get_active_hardware_no_gpu
      by (done || by rewrite detected_hardware_list_GPU).
    rewrite detected_hardware_list_CPU. simpl. by destruct os.
  - rewrite (get_active_hardware_gpu _ (gpu_info_of g) (map gpu_info_of gs))
      by (by rewrite detected_hardware_list_GPU).
    simpl. by destruct os.
Qed.

Lemma auto_detect_str_witness :
  ∃ vendor_id_raw : string,
    get_cpu_info linux_host !! "vendor_id_raw" = Some vendor_id_raw ∧
    (ExecutionPlatform_str (detected Linux [] GenuineIntel "Intel Xeon")).1 =
      Return ("Linux" +:+ "/" +:+ vendor_id_raw +:+ "/" +:+ "Vulkan").
Proof.
  apply (auto_detect_str linux_host). vm_compute. reflexivity.
Defined.
(** ** Further properties: display_summary *)

(** What [display_summary] does on a [defaultdict], in closed form: both keys
    get bound, the first two lines are always printed, and the head of the
    CPU list decides whether the call goes on. *)
Lemma display_summary_spec (list_repr : list HardwareInformation → string)
    (out : list string) (p : ExecutionPlatform) :
  class_of (available_hardware p) = defaultdict →
  display_summary list_repr out p =
    (match hardware_list p CPU with
     | [] => Raise IndexError
     | _ :: _ => Return tt
     end,
     out ++
       ("Detected OS     -> " +:+ value (operating_system p)) ::
       ("Detected GPUs   -> " +:+ list_repr (hardware_list p GPU)) ::
       match hardware_list p CPU with
       | [] => []
       | cpu :: _ =>
           [ "Detected CPU    -> " +:+ hardware_model cpu;
             "Vulkan backend  -> " +:+ value (vulkan_backend p);
             match hardware_list p GPU with
             | gpu :: _ =>
                 "Shaders will most likely be executed on " +:+
                 hardware_model gpu
             | [] => "No GPU detected, shaders will be executed on CPU"
             end ]
       end,
     with_available_hardware
       (<[CPU := hardware_list p CPU]>
          (<[GPU := hardware_list p GPU]> (items (available_hardware p)))) p).
Proof.
  intros Hd.
  set (d1 := <[GPU := hardware_list p GPU]> (items (available_hardware p))).
  set (p2 := with_available_hardware (<[CPU := hardware_list p CPU]> d1) p).
  assert (getitem CPU (with_available_hardware d1 p) =
            (Return (hardware_list p CPU), p2)) as Hcpu.
  { rewrite getitem_spec by done.
    unfold hardware_list, with_available_hardware, p2, d1.
    simpl. by rewrite lookup_insert_ne. }
  assert (getitem GPU p2 = (Return (hardware_list p GPU), p2)) as Hgpu.
  { apply getitem_Some. unfold p2, d1. simpl.
    rewrite lookup_insert_ne by done. by rewrite lookup_insert_eq. }
  unfold display_summary, io_bind, run, print, get_operating_system,
    get_vulkan_backend.
  rewrite getitem_spec by done. fold d1. rewrite Hcpu.
  destruct (hardware_list p CPU) as [|cpu cpus] eqn:Hc; simpl.
  - by rewrite <- !app_assoc.
  - rewrite Hgpu.
    destruct (hardware_list p GPU) as [|gpu gpus] eqn:Hg; simpl.
    + by rewrite <- !app_assoc.
    + rewrite Hgpu. simpl. by rewrite <- !app_assoc.
Qed.

(** With both keys bound the class of the dictionary plays no part, and the
    platform is left as it is. *)
Lemma display_summary_bound (list_repr : list HardwareInformation → string)
    (out : list string) (p : ExecutionPlatform)
    (gpus cpus : list HardwareInformation) :
  items (available_hardware p) !! GPU = Some gpus →
  items (available_hardware p) !! CPU = Some cpus →
  display_summary list_repr out p =
    (match cpus with
     | [] => Raise IndexError
     | _ :: _ => Return tt
     end,
     out ++
       ("Detected OS     -> " +:+ value (operating_system p)) ::
       ("Detected GPUs   -> " +:+ list_repr gpus) ::
       match cpus with
       | [] => []
       | cpu :: _ =>
           [ "Detected CPU    -> " +:+ hardware_model cpu;
             "Vulkan backend  -> " +:+ value (vulkan_backend p);
             match gpus with
             | gpu :: _ =>
                 "Shaders will most likely be executed on " +:+
                 hardware_model gpu
             | [] => "No GPU detected, shaders will be executed on CPU"
             end ]
       end,
     p).
Proof.
  intros Hg Hc.
  unfold display_summary, io_bind, run, print, get_operating_system,
    get_vulkan_backend.
  rewrite (getitem_Some _ _ _ Hg), (getitem_Some _ _ _ Hc).
  destruct cpus as [|cpu cpus]; simpl.
  - by rewrite <- !app_assoc.
  - rewrite (getitem_Some _ _ _ Hg). destruct gpus as [|gpu gpus]; simpl.
    + by rewrite <- !app_assoc.
    + rewrite (getitem_Some _ _ _ Hg). simpl. by rewrite <- !app_assoc.
Qed.

(** On a plain [dict] the first absent key that is read ends the call. *)
Lemma display_summary_no_GPU_key
    (list_repr : list HardwareInformation → string) (out : list string)
    (p : ExecutionPlatform) :
  class_of (available_hardware p) = dict →
  items (available_hardware p) !! GPU = None →
  display_summary list_repr out p =
    (Raise (KeyError "GPU"),
     out ++ [ "Detected OS     -> " +:+ value (operating_system p) ], p).
Proof.
  intros Hd Hg.
  unfold display_summary, io_bind, run, print, get_operating_system.
  by rewrite (getitem_KeyError _ _ Hd Hg).
Qed.

Lemma display_summary_no_CPU_key
    (list_repr : list HardwareInformation → string) (out : list string)
    (p : ExecutionPlatform) (gpus : list HardwareInformation) :
  class_of (available_hardware p) = dict →
  items (available_hardware p) !! GPU = Some gpus →
  items (available_hardware p) !! CPU = None →
  display_summary list_repr out p =
    (Raise (KeyError "CPU"),
     out ++ [ "Detected OS     -> " +:+ value (operating_system p);
              "Detected GPUs   -> " +:+ list_repr gpus ], p).
Proof.
  intros Hd Hg Hc.
  unfold display_summary, io_bind, run, print, get_operating_system.
  rewrite (getitem_Some _ _ _ Hg), (getitem_KeyError _ _ Hd Hc). simpl.
  by rewrite <- !app_assoc.
Qed.

(** When the GPU key can be read and the CPU key too, the call behaves the
    same on both classes of dictionary, up to the keys a [defaultdict]
    binds. *)
Lemma display_summary_readable
    (list_repr : list HardwareInformation → string) (out : list string)
    (p : ExecutionPlatform) :
  class_of (available_hardware p) = defaultdict ∨
    (is_Some (items (available_hardware p) !! GPU) ∧
     is_Some (items (available_hardware p) !! CPU)) →
  (display_summary list_repr out p).1 =
    (match hardware_list p CPU with
     | [] => Raise IndexError
     | _ :: _ => Return tt
     end,
     out ++
       ("Detected OS     -> " +:+ value (operating_system p)) ::
       ("Detected GPUs   -> " +:+ list_repr (hardware_list p GPU)) ::
       match hardware_list p CPU with
       | [] => []
       | cpu :: _ =>
           [ "Detected CPU    -> " +:+ hardware_model cpu;
             "Vulkan backend  -> " +:+ value (vulkan_backend p);
             match hardware_list p GPU with
             | gpu :: _ =>
                 "Shaders will most likely be executed on " +:+
                 hardware_model gpu
             | [] => "No GPU detected, shaders will be executed on CPU"
             end ]
       end).
Proof.
  intros [Hd|[[gpus Hg] [cpus Hc]]].
  - by rewrite display_summary_spec.
  - rewrite (display_summary_bound _ _ _ _ _ Hg Hc).
    by rewrite (hardware_list_Some _ _ _ Hg), (hardware_list_Some _ _ _ Hc).
Qed.

(** X17. [display_summary] raises in three cases only: [IndexError] when the
    reads of the keys go through (a [defaultdict], or both keys bound) and
    the CPU list is empty, after the line of the operating system and the
    line of the GPUs; the [KeyError] of the GPU key on a plain [dict]
    without that key, after the line of the operating system alone; and the
    [KeyError] of the CPU key on a plain [dict] that binds the GPU key and
    not the CPU key, after the two lines. A GPU does not prevent it: with a
    GPU entry and an empty CPU list [get_active_hardware] returns the GPU
    and [display_summary] raises. *)
Theorem display_summary_raises_iff
    (list_repr : list HardwareInformation → string) (out : list string)
    (p : ExecutionPlatform) :
  (∀ e : exn,
     (display_summary list_repr out p).1.1 = Raise e ↔
     (e = IndexError ∧ hardware_list p CPU = [] ∧
      (class_of (available_hardware p) = defaultdict ∨
       (is_Some (items (available_hardware p) !! GPU) ∧
        is_Some (items (available_hardware p) !! CPU)))) ∨
     (e = KeyError "GPU" ∧
      class_of (available_hardware p) = dict ∧
      items (available_hardware p) !! GPU = None) ∨
     (e = KeyError "CPU" ∧
      class_of (available_hardware p) = dict ∧
      is_Some (items (available_hardware p) !! GPU) ∧
      items (available_hardware p) !! CPU = None)) ∧
  (class_of (available_hardware p) = dict →
   items (available_hardware p) !! GPU = None →
   (display_summary list_repr out p).1.2 =
     out ++ [ "Detected OS     -> " +:+ value (operating_system p) ]) ∧
  (hardware_list p CPU = [] →
   class_of (available_hardware p) = defaultdict ∨
     is_Some (items (available_hardware p) !! GPU) →
   (display_summary list_repr out p).1.2 =
     out ++ [ "Detected OS     -> " +:+ value (operating_system p);
              "Detected GPUs   -> " +:+ list_repr (hardware_list p GPU) ]) ∧
  (∀ (g : HardwareInformation) (gs : list HardwareInformation),
     hardware_list p GPU = g :: gs → hardware_list p CPU = [] →
     (get_active_hardware p).1 = Return g ∧
     ∃ e : exn, (display_summary list_repr out p).1.1 = Raise e).
Proof.
  assert (∀ e : exn,
     (display_summary list_repr out p).1.1 = Raise e ↔
     (e = IndexError ∧ hardware_list p CPU = [] ∧
      (class_of (available_hardware p) = defaultdict ∨
       (is_Some (items (available_hardware p) !! GPU) ∧
        is_Some (items (available_hardware p) !! CPU)))) ∨
     (e = KeyError "GPU" ∧
      class_of (available_hardware p) = dict ∧
      items (available_hardware p) !! GPU = None) ∨
     (e = KeyError "CPU" ∧
      class_of (available_hardware p) = dict ∧
      is_Some (items (available_hardware p) !! GPU) ∧
      items (available_hardware p) !! CPU = None)) as Hiff.
  { intros e. destruct (class_of (available_hardware p)) eqn:Hd.
    - destruct (items (available_hardware p) !! GPU) as [gpus|] eqn:Hg.
      + destruct (items (available_hardware p) !! CPU) as [cpus|] eqn:Hc.
        * rewrite (display_summary_bound _ _ _ _ _ Hg Hc). simpl.
          rewrite (hardware_list_Some _ _ _ Hc). destruct cpus as [|c cs].
          -- split.
             ++ intros [= <-]. left. split; [done|]. split; [done|].
                right. by split; eexists.
             ++ by intros [(-> & _)|[(_ & _ & [=])|(_ & _ & _ & [=])]].
          -- split; [done|].
             by intros [(_ & [=] & _)|[(_ & _ & [=])|(_ & _ & _ & [=])]].
        * rewrite (display_summary_no_CPU_key _ _ _ _ Hd Hg Hc). simpl.
          split.
          -- intros [= <-]. right. right. split; [done|]. split; [done|].
             split; [by eexists|done].
          -- intros [(_ & _ & [[=]|[_ [c' [=]]]])|[(_ & _ & [=])|(-> & _)]].
             done.
      + rewrite (display_summary_no_GPU_key _ _ _ Hd Hg). simpl. split.
        * intros [= <-]. right. left. done.
        * intros [(_ & _ & [[=]|[[g' [=]] _]])|[(-> & _)|(_ & _ & [g' [=]] & _)]].
          done.
    - rewrite display_summary_spec by done. simpl.
      destruct (hardware_list p CPU) as [|c cs].
      + split.
        * intros [= <-]. left. split; [done|]. split; [done|]. by left.
        * by intros [(-> & _)|[(_ & [=] & _)|(_ & [=] & _)]].
      + split; [done|].
        by intros [(_ & [=] & _)|[(_ & [=] & _)|(_ & [=] & _)]]. }
  split; [done|]. split; [|split].
  - intros Hd Hg. by rewrite (display_summary_no_GPU_key _ _ _ Hd Hg).
  - intros Hc [Hd|[gpus Hg]].
    + rewrite display_summary_spec by done. simpl. by rewrite Hc.
    + destruct (items (available_hardware p) !! CPU) as [cpus|] eqn:Hl.
      * rewrite (display_summary_bound _ _ _ _ _ Hg Hl). simpl.
        rewrite (hardware_list_Some _ _ _ Hl) in Hc. subst cpus.
        by rewrite (hardware_list_Some _ _ _ Hg).
      * destruct (class_of (available_hardware p)) eqn:Hd.
        -- rewrite (display_summary_no_CPU_key _ _ _ _ Hd Hg Hl). simpl.
           by rewrite (hardware_list_Some _ _ _ Hg).
        -- rewrite display_summary_spec by done. simpl. by rewrite Hc.
  - intros g gs Hg Hc. rewrite (get_active_hardware_gpu _ _ _ Hg).
    split; [done|].
    destruct (class_of (available_hardware p)) eqn:Hd.
    + destruct (items (available_hardware p) !! CPU) as [cpus|] eqn:Hl.
      * exists IndexError. apply Hiff. left. split; [done|]. split; [done|].
        right. split; [|by eexists]. apply hardware_list_cons in Hg. by eexists.
      * exists (KeyError "CPU"). apply Hiff. right. right.
        split; [done|]. split; [done|]. split; [|done].
        apply hardware_list_cons in Hg. by eexists.
    + exists IndexError. apply Hiff. left. split; [done|]. split; [done|].
      by left.
Qed.

Lemma display_summary_raises_iff_witness :
  (get_active_hardware gpu_only_platform).1 =
    Return {| hardware_type := GPU; hardware_vendor := Nvidia;
              hardware_model := "Tesla T4"; driver_version := "535.104" |} ∧
  (display_summary (λ _, "[...]") [] gpu_only_platform).1.2 =
    [ "Detected OS     -> Linux"; "Detected GPUs   -> [...]" ] ∧
  (display_summary (λ _, "[...]") [] cpu_only_dict_platform).1.2 =
    [ "Detected OS     -> Linux" ].
Proof.
  destruct (display_summary_raises_iff (λ _, "[...]") [] gpu_only_platform)
    as (_ & _ & Hout & Hgpu).
  destruct (display_summary_raises_iff (λ _, "[...]") [] cpu_only_dict_platform)
    as (_ & Hkey & _).
  destruct (Hgpu _ [] ltac:(vm_compute; reflexivity) eq_refl) as [Hact _].
  split; [exact Hact|]. split.
  - rewrite Hout; [reflexivity | reflexivity | right; by eexists].
  - rewrite Hkey; reflexivity.
Defined.

(** X18. On a platform with a CPU entry whose GPU key can be read (a
    [defaultdict], or the key bound), [display_summary] returns, and prints
    five lines after what was printed before: the operating system, the GPU
    list, the model of the first CPU entry, the backend, and either the model
    of the first GPU entry or the notice that no GPU was detected. *)
Theorem display_summary_prints
    (list_repr : list HardwareInformation → string) (out : list string)
    (p : ExecutionPlatform) (cpu : HardwareInformation)
    (cpus : list HardwareInformation) :
  hardware_list p CPU = cpu :: cpus →
  class_of (available_hardware p) = defaultdict ∨
    is_Some (items (available_hardware p) !! GPU) →
  (display_summary list_repr out p).1 =
    (Return tt,
     out ++
       [ "Detected OS     -> " +:+ value (operating_system p);
         "Detected GPUs   -> " +:+ list_repr (hardware_list p GPU);
         "Detected CPU    -> " +:+ hardware_model cpu;
         "Vulkan backend  -> " +:+ value (vulkan_backend p);
         match hardware_list p GPU with
         | gpu :: _ =>
             "Shaders will most likely be executed on " +:+ hardware_model gpu
         | [] => "No GPU detected, shaders will be executed on CPU"
         end ]).
Proof.
  intros Hc Hr. rewrite display_summary_readable.
  - by rewrite Hc.
  - destruct Hr as [Hd|Hg]; [by left|]. right. split; [done|].
    apply hardware_list_cons in Hc. by eexists.
Qed.

Lemma display_summary_prints_witness :
  (display_summary (λ _, "[]") ["earlier output"]
     (detected Linux [] GenuineIntel "Intel Xeon")).1 =
    (Return tt,
     [ "earlier output";
       "Detected OS     -> Linux";
       "Detected GPUs   -> []";
       "Detected CPU    -> Intel Xeon";
       "Vulkan backend  -> Vulkan";
       "No GPU detected, shaders will be executed on CPU" ]).
Proof.
  rewrite (display_summary_prints (λ _, "[]") ["earlier output"]
             (detected Linux [] GenuineIntel "Intel Xeon")
             (cpu_info_of GenuineIntel "Intel Xeon") []);
    [reflexivity | vm_compute; reflexivity | by left].
Defined.

(** X19. Whether it returns or raises, [display_summary] changes no list,
    neither of the two other fields nor the class of the dictionary, and it
    only adds to the output. On a [defaultdict] it leaves both keys bound,
    each to the list it stood for before; on a plain [dict] it leaves the
    platform as it was. *)
Theorem display_summary_binds_both_keys
    (list_repr : list HardwareInformation → string) (out : list string)
    (p : ExecutionPlatform) :
  (class_of (available_hardware p) = defaultdict →
   ∀ t : HardwareType,
     items (available_hardware (display_summary list_repr out p).2) !! t =
       Some (hardware_list p t)) ∧
  (class_of (available_hardware p) = dict →
   (display_summary list_repr out p).2 = p) ∧
  (∀ t : HardwareType,
     hardware_list (display_summary list_repr out p).2 t = hardware_list p t) ∧
  vulkan_backend (display_summary list_repr out p).2 = vulkan_backend p ∧
  operating_system (display_summary list_repr out p).2 = operating_system p ∧
  class_of (available_hardware (display_summary list_repr out p).2) =
    class_of (available_hardware p) ∧
  ∃ lines : list string,
    (display_summary list_repr out p).1.2 = out ++ lines.
Proof.
  destruct (class_of (available_hardware p)) eqn:Hd.
  - assert ((display_summary list_repr out p).2 = p ∧
            ∃ lines : list string,
              (display_summary list_repr out p).1.2 = out ++ lines)
      as [Hst Hout].
    { destruct (items (available_hardware p) !! GPU) as [gpus|] eqn:Hg.
      - destruct (items (available_hardware p) !! CPU) as [cpus|] eqn:Hc.
        + rewrite (display_summary_bound _ _ _ _ _ Hg Hc). by eauto.
        + rewrite (display_summary_no_CPU_key _ _ _ _ Hd Hg Hc). by eauto.
      - rewrite (display_summary_no_GPU_key _ _ _ Hd Hg). by eauto. }
    rewrite Hst. by rewrite Hd.
  - rewrite display_summary_spec by done. simpl.
    assert (∀ t : HardwareType,
              <[CPU := hardware_list p CPU]>
                (<[GPU := hardware_list p GPU]> (items (available_hardware p)))
                !! t = Some (hardware_list p t)) as Hb.
    { intros []; [by rewrite lookup_insert_eq|].
      rewrite lookup_insert_ne by done. by rewrite lookup_insert_eq. }
    split; [done|]. split; [done|]. split.
    + intros t. unfold hardware_list at 1. simpl. by rewrite Hb.
    + split; [done|]. split; [done|]. split; [done|]. by eexists.
Qed.

Lemma display_summary_binds_both_keys_witness :
  items (available_hardware
           (display_summary (λ _, "[]") [] bare_platform).2) !! GPU = Some [] ∧
  (display_summary (λ _, "[]") [] empty_dict_platform).2 = empty_dict_platform.
Proof.
  destruct (display_summary_binds_both_keys (λ _, "[]") [] bare_platform)
    as (Hdd & _).
  destruct (display_summary_binds_both_keys (λ _, "[]") [] empty_dict_platform)
    as (_ & Hdict & _).
  split; [exact (Hdd eq_refl GPU) | exact (Hdict eq_refl)].
Defined.

(** X20. On a platform with a CPU entry whose GPU key can be read, the device
    [display_summary] names in its last line is the one
    [get_active_hardware] returns: with a GPU entry the last line carries the
    model of that result, and without one the result is the CPU entry whose
    model is on the CPU line. *)
Theorem display_summary_names_active_hardware
    (list_repr : list HardwareInformation → string) (out : list string)
    (p : ExecutionPlatform) :
  hardware_list p CPU ≠ [] →
  class_of (available_hardware p) = defaultdict ∨
    is_Some (items (available_hardware p) !! GPU) →
  ∃ hw : HardwareInformation,
    (get_active_hardware p).1 = Return hw ∧
    match hardware_list p GPU with
    | _ :: _ =>
        last (display_summary list_repr out p).1.2 =
          Some ("Shaders will most likely be executed on " +:+
                hardware_model hw)
    | [] =>
        last (display_summary list_repr out p).1.2 =
          Some "No GPU detected, shaders will be executed on CPU" ∧
        (display_summary list_repr out p).1.2 !! (length out + 2) =
          Some ("Detected CPU    -> " +:+ hardware_model hw)
    end.
Proof.
  intros Hne Hr.
  destruct (hardware_list p CPU) as [|cpu cpus] eqn:Hc; [done|].
  assert (class_of (available_hardware p) = defaultdict ∨
            (is_Some (items (available_hardware p) !! GPU) ∧
             is_Some (items (available_hardware p) !! CPU))) as Hr'.
  { destruct Hr as [Hd|Hg]; [by left|]. right. split; [done|].
    apply hardware_list_cons in Hc. by eexists. }
  rewrite (display_summary_readable _ _ _ Hr'), Hc. simpl.
  destruct (hardware_list p GPU) as [|gpu gpus] eqn:Hg.
  - exists cpu. split.
    + destruct Hr as [Hd|[l Hl]].
      * rewrite (get_active_hardware_no_gpu _ Hd Hg), Hc. done.
      * rewrite (hardware_list_Some _ _ _ Hl) in Hg. subst l.
        by rewrite (get_active_hardware_bound _ _ Hl
                      (hardware_list_cons _ _ _ _ Hc)).
    + split.
      * by rewrite last_app.
      * rewrite lookup_app_r by lia.
        by replace (length out + 2 - length out) with 2 by lia.
  - exists gpu. rewrite (get_active_hardware_gpu _ _ _ Hg). simpl.
    split; [done|]. by rewrite last_app.
Qed.

Lemma display_summary_names_active_hardware_witness :
  ∃ hw : HardwareInformation,
    (get_active_hardware
       (detected Darwin (getGPUs darwin_host) GenuineIntel "Intel Core i9")).1 =
      Return hw ∧
    last (display_summary (λ _, "[...]") []
            (detected Darwin (getGPUs darwin_host) GenuineIntel
               "Intel Core i9")).1.2 =
      Some ("Shaders will most likely be executed on " +:+ hardware_model hw).
Proof.
  apply (display_summary_names_active_hardware (λ _, "[...]") []
           (detected Darwin (getGPUs darwin_host) GenuineIntel "Intel Core i9")).
  - vm_compute. discriminate.
  - by left.
Defined.

(** X21. After a detection pass [display_summary] returns, and its five
    lines are made of the probe results: the reported system, the entries of
    the reported GPUs, the reported CPU brand, "MoltenVK" on "Darwin" and
    "Vulkan" otherwise, and the name of the first reported GPU or the notice
    that there is none. *)
Theorem auto_detect_display_summary
    (list_repr : list HardwareInformation → string) (out : list string)
    (host : Host) (p : ExecutionPlatform) :
  auto_detect host = Return p →
  ∃ brand_raw : string,
    get_cpu_info host !! "brand_raw" = Some brand_raw ∧
    (display_summary list_repr out p).1 =
      (Return tt,
       out ++
         [ "Detected OS     -> " +:+ platform_system host;
           "Detected GPUs   -> " +:+
             list_repr (map gpu_info_of (getGPUs host));
           "Detected CPU    -> " +:+ brand_raw;
           "Vulkan backend  -> " +:+
             (if String.eqb (platform_system host) "Darwin"
              then "MoltenVK" else "Vulkan");
           match getGPUs host with
           | nvidia_gpu :: _ =>
               "Shaders will most likely be executed on " +:+
               gpu_name nvidia_gpu
           | [] => "No GPU detected, shaders will be executed on CPU"
           end ]).
Proof.
  intros Hp.
  destruct (auto_detect_inv _ _ Hp)
    as (os & vr & v & br & Hos & _ & _ & Hb & ->).
  exists br. split; [done|]. apply call_Return_value in Hos. rewrite <- Hos.
  rewrite display_summary_spec by done. simpl.
  rewrite detected_hardware_list_CPU, detected_hardware_list_GPU.
  do 6 f_equal; [by destruct os|]. f_equal. by destruct (getGPUs host).
Qed.

Lemma auto_detect_display_summary_witness :
  ∃ brand_raw : string,
    get_cpu_info darwin_host !! "brand_raw" = Some brand_raw ∧
    (display_summary (λ _, "[...]") []
       (detected Darwin (getGPUs darwin_host) GenuineIntel "Intel Core i9")).1 =
      (Return tt,
       [ "Detected OS     -> Darwin";
         "Detected GPUs   -> [...]";
         "Detected CPU    -> " +:+ brand_raw;
         "Vulkan backend  -> MoltenVK";
         "Shaders will most likely be executed on Apple M2" ]).
Proof.
  apply (auto_detect_display_summary (λ _, "[...]") [] darwin_host).
  vm_compute. reflexivity.
Defined.
